(** * A conversational calendar assistant: calendar_service.py and agent.py

    Shallow embedding of the availability check, the slot-suggestion scan and
    the turn handler of the appointment agent, with the properties of the
    design document stated over it.

    Conventions of the embedding:
    - a Python [datetime] is naive (no tzinfo), as [datetime.strptime] and
      [datetime.now()] produce them here; adding a [timedelta] raises
      [OverflowError] when the result leaves the years 1..9999, as in
      Python;
    - values that come out of [json.loads] are the type [json]; JSON numbers
      are integers;
    - a Python [dict] is an association list in insertion order;
    - exceptions are the instances of Python's [Exception]; a computation
      that may raise returns [result];
    - the language model, the remote calendar API and the wall clock are
      oracles collected in [environment]; [json.loads], [strptime] and the
      [repr] of non-string values are library functions collected in
      [library]. *)

From Stdlib Require Import ZArith List String Ascii Bool Lia Sorted.
From Stdlib Require Import DecimalString DecimalNat.
Import ListNotations.

Set Warnings "-register-all".

Local Open Scope Z_scope.
Local Open Scope string_scope.
Local Open Scope list_scope.

(* ================================================================== *)
(** ** Python values *)

Module Py.

(** Values produced by [json.loads]. *)
Inductive json : Type :=
| JNull
| JBool (b : bool)
| JNum (n : Z)
| JStr (s : string)
| JList (l : list json)
| JObj (d : list (string * json)).

Definition dict := list (string * json).

(** Exceptions: the class name and [str(e)]. *)
Record exn : Type := Exn { exn_type : string; exn_text : string }.

Inductive result (A : Type) : Type :=
| Ok (a : A)
| Raise (e : exn).
Arguments Ok {A} a.
Arguments Raise {A} e.

Definition bind {A B} (m : result A) (k : A -> result B) : result B :=
  match m with
  | Ok a => k a
  | Raise e => Raise e
  end.

(** [d.get(k)]: the first binding of [k]. *)
Fixpoint dict_get (d : dict) (k : string) : option json :=
  match d with
  | [] => None
  | (k', v) :: rest => if String.eqb k' k then Some v else dict_get rest k
  end.

(** [d[k] = v]: overwrite in place, or append a new key. *)
Fixpoint dict_set (d : dict) (k : string) (v : json) : dict :=
  match d with
  | [] => [(k, v)]
  | (k', v') :: rest =>
      if String.eqb k' k then (k, v) :: rest else (k', v') :: dict_set rest k v
  end.

(** Truth value of a JSON value in a condition. *)
Definition truthy (v : json) : bool :=
  match v with
  | JNull => false
  | JBool b => b
  | JNum n => negb (n =? 0)%Z
  | JStr s => negb (String.eqb s "")
  | JList l => match l with [] => false | _ => true end
  | JObj d => match d with [] => false | _ => true end
  end.

(** [v == 'text'] for a string literal. *)
Definition eq_str (v : json) (s : string) : bool :=
  match v with
  | JStr s' => String.eqb s' s
  | _ => false
  end.

(** [v == n] for an integer literal ([True == 1] and [False == 0]). *)
Definition eq_int (v : json) (n : Z) : bool :=
  match v with
  | JNum m => (m =? n)%Z
  | JBool b => ((if b then 1 else 0) =? n)%Z
  | _ => false
  end.

Definition type_name (v : json) : string :=
  match v with
  | JNull => "NoneType"
  | JBool _ => "bool"
  | JNum _ => "int"
  | JStr _ => "str"
  | JList _ => "list"
  | JObj _ => "dict"
  end.

Definition fstring (parts : list string) : string := String.concat "" parts.

(** [v.get(k, default)]: only a dict has the method. *)
Definition get (v : json) (k : string) (default : json) : result json :=
  match v with
  | JObj d => Ok (match dict_get d k with Some x => x | None => default end)
  | _ => Raise (Exn "AttributeError"
                  (fstring ["'"; type_name v; "' object has no attribute 'get'"]))
  end.

(** [d[k]] on a dict. *)
Definition getitem (d : dict) (k : string) : result json :=
  match dict_get d k with
  | Some x => Ok x
  | None => Raise (Exn "KeyError" (fstring ["'"; k; "'"]))
  end.

(** [v[k]] for a string key. *)
Definition subscript (v : json) (k : string) : result json :=
  match v with
  | JObj d => getitem d k
  | _ => Raise (Exn "TypeError"
                  (fstring ["'"; type_name v; "' object is not subscriptable"]))
  end.

(** [{**v}]: only a mapping can be unpacked. *)
Definition unpack (v : json) : result dict :=
  match v with
  | JObj d => Ok d
  | _ => Raise (Exn "TypeError"
                  (fstring ["'"; type_name v; "' object is not a mapping"]))
  end.

Definition str_of_nat (n : nat) : string :=
  NilEmpty.string_of_uint (Nat.to_uint n).

Definition str_of_Z (n : Z) : string :=
  NilEmpty.string_of_int (Z.to_int n).

(** [timedelta(minutes=n)] for an integer, as its number of minutes: the
    days of a [timedelta] have a magnitude of at most 999999999, beyond
    which the constructor raises [OverflowError]. *)
Definition timedelta (minutes : Z) : result Z :=
  let days := (minutes / 1440)%Z in
  if ((-999999999 <=? days) && (days <=? 999999999))%Z then Ok minutes
  else
    Raise (Exn "OverflowError"
             (if ((-2147483648 <=? days) && (days <=? 2147483647))%Z
              then fstring ["days="; str_of_Z days;
                            "; must have magnitude <= 999999999"]
              else "Python int too large to convert to C int")).

(** [timedelta(minutes=v)]: numbers only ([bool] is a subclass of [int]). *)
Definition timedelta_minutes (v : json) : result Z :=
  match v with
  | JNum n => timedelta n
  | JBool b => timedelta (if b then 1 else 0)
  | _ => Raise (Exn "TypeError"
                  (fstring ["unsupported type for timedelta minutes component: ";
                            type_name v]))
  end.

(** The integer an argument annotated [int] holds. *)
Definition as_int (v : json) : option Z :=
  match v with
  | JNum n => Some n
  | JBool b => Some (if b then 1 else 0)
  | _ => None
  end.

(** [s[:n]] on a list. *)
Definition slice_to {A} (n : nat) (l : list A) : list A := firstn n l.

End Py.
Export Py.

Declare Scope result_scope.
Delimit Scope result_scope with result.
Notation "x <- m ;; k" := (Py.bind m (fun x => k))
  (at level 61, m at next level, right associativity) : result_scope.

(* ================================================================== *)
(** ** Naive datetimes *)

Module Datetime.

(** [ordinal] is the day number of the date. *)
Record datetime : Type := mkdt {
  ordinal : Z;
  hour : Z;
  minute : Z;
  second : Z;
  microsecond : Z
}.

(** Position on the time line, in microseconds. *)
Definition to_micros (t : datetime) : Z :=
  (((ordinal t * 24 + hour t) * 60 + minute t) * 60 + second t) * 1000000
  + microsecond t.

Definition of_micros (u : Z) : datetime :=
  {| ordinal := u / 86400000000;
     hour := (u / 3600000000) mod 24;
     minute := (u / 60000000) mod 60;
     second := (u / 1000000) mod 60;
     microsecond := u mod 1000000 |}.

(** [a < b] and [a > b]. *)
Definition lt (a b : datetime) : bool := (to_micros a <? to_micros b)%Z.
Definition gt (a b : datetime) : bool := lt b a.

(** The point of time [m] minutes after [t]. *)
Definition shift_minutes (t : datetime) (m : Z) : datetime :=
  of_micros (to_micros t + m * 60000000).

(** The date is one of the years 1..9999 ([date.min.toordinal()] is 1,
    [date.max.toordinal()] is 3652059). *)
Definition in_range (t : datetime) : bool :=
  ((1 <=? ordinal t) && (ordinal t <=? 3652059))%Z.

(** [t + timedelta(minutes=m)]: [OverflowError] when the [timedelta]
    cannot be built or the sum leaves the years 1..9999. *)
Definition add_minutes (t : datetime) (m : Z) : result datetime :=
  (minutes <- timedelta m ;;
   let sum := shift_minutes t minutes in
   if in_range sum then Ok sum
   else Raise (Exn "OverflowError" "date value out of range"))%result.

(** [t.replace(hour=h, minute=m, second=0, microsecond=0)]. *)
Definition replace_time (t : datetime) (h m : Z) : datetime :=
  {| ordinal := ordinal t; hour := h; minute := m;
     second := 0; microsecond := 0 |}.

Definition two_digits (n : Z) : string :=
  if (n <? 10)%Z then String.append "0" (str_of_Z n) else str_of_Z n.

(** [t.strftime("%H:%M")]. *)
Definition strftime_HM (t : datetime) : string :=
  fstring [two_digits (hour t); ":"; two_digits (minute t)].

End Datetime.
Export Datetime.

(* ================================================================== *)
(** ** The in-memory calendar *)

Module MockCalendarService.

Record event : Type := mkevent {
  ev_id : string;
  ev_title : string;
  ev_start_time : datetime;
  ev_duration : Z;
  ev_description : string
}.

Record t : Type := mk {
  events : list event;
  next_event_id : nat
}.

(** [__init__]. *)
Definition init : t := {| events := []; next_event_id := 1 |}.

(** The loop over the stored events of [check_availability]. *)
Fixpoint check_events (start_time end_time : datetime) (evs : list event)
  : result bool :=
  match evs with
  | [] => Ok true
  | ev :: rest =>
      let event_start := ev.(ev_start_time) in
      (event_end <- add_minutes event_start ev.(ev_duration) ;;
       if Datetime.lt start_time event_end && Datetime.gt end_time event_start
       then Ok false
       else check_events start_time end_time rest)%result
  end.

Definition check_availability (self : t) (start_time : datetime)
    (duration_minutes : Z) : result bool :=
  (end_time <- add_minutes start_time duration_minutes ;;
   if (hour start_time =? 14)%Z then Ok false
   else check_events start_time end_time self.(events))%result.

Definition create_event (self : t) (title : string) (start_time : datetime)
    (duration_minutes : Z) (description : string) : string * t :=
  let event_id := fstring ["mock_event_"; str_of_nat self.(next_event_id)] in
  (event_id,
   {| events := self.(events) ++
                [ {| ev_id := event_id; ev_title := title;
                     ev_start_time := start_time;
                     ev_duration := duration_minutes;
                     ev_description := description |} ];
      next_event_id := S self.(next_event_id) |}).

End MockCalendarService.

(* ================================================================== *)
(** ** The outside world *)

(** What the process observes during one turn.  [now k] is the reading of
    [datetime.now()] when the [k]-th candidate of a scan is examined;
    [events_list k time_min time_max] is the answer of the remote
    [events().list(...).execute().get('items', [])] for the [k]-th candidate
    (index [0] for a single check); [events_insert] is the answer of
    [events().insert(...).execute().get('id')]; [chat_completion] is the
    text [response.choices[0].message.content] the language model returns
    for a user message and a prior context.  A call that fails, and a
    completion without text, are a [Raise]. *)
Record environment : Type := mkenv {
  now : nat -> datetime;
  events_list : nat -> datetime -> datetime -> result (list json);
  events_insert : string -> string -> datetime -> datetime ->
                  result (option string);
  chat_completion : string -> dict -> result string
}.

(** Library functions the program calls. *)
Record library : Type := mklib {
  json_loads : string -> result json;
  strptime : string -> string -> result datetime;
  repr : json -> string
}.

(** [range(a, b)]. *)
Definition range (a b : Z) : list Z :=
  map (fun i => a + Z.of_nat i) (seq 0 (Z.to_nat (b - a))).

(** [start_hour, end_hour] of both [suggest_times]. *)
Definition hour_bounds (business_hours_only : bool) : Z * Z :=
  if business_hours_only then (9, 17) else (8, 20).

Module MockSuggest.

(** How the inner loop of [MockCalendarService.suggest_times] ends: by
    exhausting the minutes, or by [return suggestions]. *)
Inductive flow : Type :=
| Next (suggestions : list datetime)
| Returned (suggestions : list datetime).

Section Scan.

Variable clock : nat -> datetime.
(** [self.check_availability(candidate_time, duration_minutes)] at the
    [k]-th candidate. *)
Variable check : nat -> datetime -> result bool.
Variable target_date : datetime.

Fixpoint scan_minutes (k : nat) (hour : Z) (minutes : list Z)
    (suggestions : list datetime) : result flow :=
  match minutes with
  | [] => Ok (Next suggestions)
  | minute :: rest =>
      let candidate_time := replace_time target_date hour minute in
      if Datetime.lt candidate_time (clock k)
      then scan_minutes (S k) hour rest suggestions
      else
        (available <- check k candidate_time ;;
         let suggestions :=
           if available then suggestions ++ [candidate_time] else suggestions in
         if (5 <=? List.length suggestions)%nat then Ok (Returned suggestions)
         else scan_minutes (S k) hour rest suggestions)%result
  end.

Fixpoint scan_hours (k : nat) (hours : list Z) (suggestions : list datetime)
  : result (list datetime) :=
  match hours with
  | [] => Ok suggestions
  | hour :: rest =>
      (f <- scan_minutes k hour [0; 30] suggestions ;;
       match f with
       | Returned suggestions => Ok suggestions
       | Next suggestions => scan_hours (k + 2) rest suggestions
       end)%result
  end.

End Scan.

End MockSuggest.

Module LiveSuggest.

Section Scan.

Variable clock : nat -> datetime.
Variable check : nat -> datetime -> result bool.
Variable target_date : datetime.

(** The inner loop ends by exhausting the minutes or by [break]. *)
Fixpoint scan_minutes (k : nat) (hour : Z) (minutes : list Z)
    (suggestions : list datetime) : result (list datetime) :=
  match minutes with
  | [] => Ok suggestions
  | minute :: rest =>
      let candidate_time := replace_time target_date hour minute in
      if Datetime.lt candidate_time (clock k)
      then scan_minutes (S k) hour rest suggestions
      else
        (available <- check k candidate_time ;;
         let suggestions :=
           if available then suggestions ++ [candidate_time] else suggestions in
         if (10 <=? List.length suggestions)%nat then Ok suggestions
         else scan_minutes (S k) hour rest suggestions)%result
  end.

Fixpoint scan_hours (k : nat) (hours : list Z) (suggestions : list datetime)
  : result (list datetime) :=
  match hours with
  | [] => Ok suggestions
  | hour :: rest =>
      (suggestions <- scan_minutes k hour [0; 30] suggestions ;;
       if (10 <=? List.length suggestions)%nat then Ok suggestions
       else scan_hours (k + 2) rest suggestions)%result
  end.

End Scan.

End LiveSuggest.

(** [MockCalendarService.suggest_times]. *)
Definition mock_suggest_times (env : environment) (self : MockCalendarService.t)
    (target_date : datetime) (duration_minutes : Z)
    (business_hours_only : bool) : result (list datetime) :=
  let '(start_hour, end_hour) := hour_bounds business_hours_only in
  MockSuggest.scan_hours (now env)
    (fun _ candidate_time =>
       MockCalendarService.check_availability self candidate_time
         duration_minutes)
    target_date 0 (range start_hour end_hour) [].

(* ================================================================== *)
(** ** The calendar service the agent holds *)

Module GoogleCalendarService.

(** [self.service]: the in-memory calendar, or the handle of the remote
    API. *)
Inductive t : Type :=
| MockService (m : MockCalendarService.t)
| LiveService.

(** The remote branch of [check_availability]: the body of its [try],
    and [False] for whatever it raises (no request is sent when the end
    time cannot be computed). *)
Definition live_available (env : environment) (k : nat)
    (start_time : datetime) (duration_minutes : Z) : bool :=
  match (end_time <- add_minutes start_time duration_minutes ;;
         events <- events_list env k start_time end_time ;;
         Ok (List.length events =? 0)%nat)%result with
  | Ok available => available
  | Raise _ => false
  end.

Definition check_availability (env : environment) (k : nat) (self : t)
    (start_time : datetime) (duration_minutes : Z) : result bool :=
  match self with
  | MockService m =>
      MockCalendarService.check_availability m start_time duration_minutes
  | LiveService => Ok (live_available env k start_time duration_minutes)
  end.

Definition create_event (env : environment) (self : t) (title : string)
    (start_time : datetime) (duration_minutes : Z) (description : string)
  : option string * t :=
  match self with
  | MockService m =>
      let '(event_id, m') :=
        MockCalendarService.create_event m title start_time duration_minutes
          description in
      (Some event_id, MockService m')
  | LiveService =>
      (match (end_time <- add_minutes start_time duration_minutes ;;
              events_insert env title description start_time end_time)%result
       with
       | Ok event_id => event_id
       | Raise _ => None
       end, LiveService)
  end.

Definition suggest_times (env : environment) (self : t)
    (target_date : datetime) (duration_minutes : Z)
    (business_hours_only : bool) : result (list datetime) :=
  match self with
  | MockService m =>
      mock_suggest_times env m target_date duration_minutes
        business_hours_only
  | LiveService =>
      let '(start_hour, end_hour) := hour_bounds business_hours_only in
      LiveSuggest.scan_hours (now env)
        (fun k candidate_time =>
           check_availability env k self candidate_time duration_minutes)
        target_date 0 (range start_hour end_hour) []
  end.

(** The stored events of the in-memory calendar (none for the remote one). *)
Definition stored_events (self : t) : list MockCalendarService.event :=
  match self with
  | MockService m => MockCalendarService.events m
  | LiveService => []
  end.

End GoogleCalendarService.

(* ================================================================== *)
(** ** The agent *)

Module AppointmentAgent.

Import GoogleCalendarService.

(** A call of the agent on [self.calendar_service] that entered the
    method, with its arguments. *)
Inductive backend_call : Type :=
| CheckAvailabilityCall (start_time : datetime) (duration : json)
| SuggestTimesCall (target_date : datetime) (duration : json)
| CreateEventCall (title : json) (start_time : datetime) (duration : json)
    (description : json).

(** The state a turn runs in: [self.calendar_service], and the log of the
    methods of [self.calendar_service] the agent has called so far (a ghost
    field, for stating which calls a handler makes).  What the service does
    inside a call is not logged: one [suggest_times] call examines up to 16
    candidates, each with a [check_availability] of its own. *)
Record world : Type := mkworld {
  calendar_service : GoogleCalendarService.t;
  calls : list backend_call
}.

Definition log (c : backend_call) (w : world) : world :=
  {| calendar_service := calendar_service w; calls := calls w ++ [c] |}.

(** Computations that may raise and may change the world; the world
    reached when an exception is raised is kept. *)
Definition M (A : Type) : Type := world -> result A * world.

Definition ret {A} (a : A) : M A := fun w => (Ok a, w).

Definition bindM {A B} (m : M A) (k : A -> M B) : M B :=
  fun w => match m w with
           | (Ok a, w') => k a w'
           | (Raise e, w') => (Raise e, w')
           end.

Definition lift {A} (r : result A) : M A := fun w => (r, w).

(** [try: m  except Exception as e: h e]. *)
Definition try_except {A} (m : M A) (h : exn -> M A) : M A :=
  fun w => match m w with
           | (Ok a, w') => (Ok a, w')
           | (Raise e, w') => h e w'
           end.

Declare Scope agent_scope.
Delimit Scope agent_scope with agent.
Notation "x <~ m ;; k" := (bindM m (fun x => k))
  (at level 61, m at next level, right associativity) : agent_scope.

Definition nl : string := String "010"%char EmptyString.

(** Parameter names of [GoogleCalendarService.create_event] (after [self]). *)
Definition create_event_parameters : list string :=
  ["title"; "start_time"; "duration_minutes"; "description"].

(** The first keyword of a call that names no parameter of the callee. *)
Fixpoint unexpected_keyword (parameters keywords : list string)
  : option string :=
  match keywords with
  | [] => None
  | kw :: rest =>
      if existsb (String.eqb kw) parameters
      then unexpected_keyword parameters rest
      else Some kw
  end.

Section Agent.

Variable lib : library.
Variable env : environment.

(** [str(v)] inside an f-string; lists and dicts print as their [repr]. *)
Definition str (v : json) : string :=
  match v with
  | JStr s => s
  | JNum n => str_of_Z n
  | JBool b => if b then "True" else "False"
  | JNull => "None"
  | _ => repr lib v
  end.

(** [datetime.strptime(v, format)]. *)
Definition strptime_value (v : json) (format : string) : result datetime :=
  match v with
  | JStr s => strptime lib s format
  | _ => Raise (Exn "TypeError"
                  (fstring ["strptime() argument 1 must be str, not ";
                            type_name v]))
  end.

(** [ai_response.get('context', {})]. *)
Definition context_of (ai_response : dict) : json :=
  match dict_get ai_response "context" with
  | Some c => c
  | None => JObj []
  end.

(** The answer of [check_availability(start_time, duration)] for the
    untyped [duration] of the parameters: [timedelta(minutes=duration)]
    raises in the in-memory calendar, and inside the [try] of the remote
    branch, which then answers [False]. *)
Definition check_availability_answer (k : nat) (self : GoogleCalendarService.t)
    (start_time : datetime) (duration : json) : result bool :=
  match timedelta_minutes duration with
  | Ok d => check_availability env k self start_time d
  | Raise e =>
      match self with
      | MockService _ => Raise e
      | LiveService => Ok false
      end
  end.

(** [self.calendar_service.check_availability(start_time, duration)]. *)
Definition call_check_availability (start_time : datetime) (duration : json)
  : M bool :=
  fun w =>
    (check_availability_answer 0 (calendar_service w) start_time duration,
     log (CheckAvailabilityCall start_time duration) w).

(** [self.calendar_service.suggest_times(target_date, duration)];
    [business_hours_only] keeps its default [True]. *)
Definition call_suggest_times (target_date : datetime) (duration : json)
  : M (list datetime) :=
  fun w =>
    let self := calendar_service w in
    let '(start_hour, end_hour) := hour_bounds true in
    let check k candidate_time :=
      check_availability_answer k self candidate_time duration in
    (match self with
     | MockService _ =>
         MockSuggest.scan_hours (now env) check target_date 0
           (range start_hour end_hour) []
     | LiveService =>
         LiveSuggest.scan_hours (now env) check target_date 0
           (range start_hour end_hour) []
     end,
     log (SuggestTimesCall target_date duration) w).

(** [self.calendar_service.create_event(kw1=..., kw2=..., ...)]: the
    keywords are bound to the parameters of the method first; a keyword that
    names no parameter raises [TypeError] before the method is entered.
    Arguments that bind are passed on with the types of the signature. *)
Definition call_create_event (keywords : list string) (title : json)
    (start_time : datetime) (duration : json) (description : json)
  : M (option string) :=
  fun w =>
    match unexpected_keyword create_event_parameters keywords with
    | Some kw =>
        (Raise (Exn "TypeError"
                  (fstring ["GoogleCalendarService.create_event() got an ";
                            "unexpected keyword argument '"; kw; "'"])),
         w)
    | None =>
        let w := log (CreateEventCall title start_time duration description) w in
        match title, as_int duration, description with
        | JStr title, Some d, JStr description =>
            let '(event_id, self') :=
              create_event env (calendar_service w) title start_time d
                description in
            (Ok event_id, {| calendar_service := self'; calls := calls w |})
        | _, _, _ =>
            (Raise (Exn "TypeError" "argument not of the annotated type"), w)
        end
    end.

(** [[field for field in fields if not parameters.get(field)]]. *)
Fixpoint missing_among (parameters : json) (fields : list string)
  : result (list string) :=
  match fields with
  | [] => Ok []
  | field :: rest =>
      (v <- get parameters field JNull ;;
       others <- missing_among parameters rest ;;
       Ok (if truthy v then others else field :: others))%result
  end.

(** The [try] block of [_check_availability]. *)
Definition _check_availability_try (date_str time_str duration : json)
    (ai_response : dict) : M dict :=
  (start_time <~
     lift (if truthy time_str
           then
             let datetime_str := fstring [str date_str; " "; str time_str] in
             strptime lib datetime_str "%Y-%m-%d %H:%M"
           else strptime_value date_str "%Y-%m-%d") ;;
   is_available <~ call_check_availability start_time duration ;;
   let message :=
     if is_available : bool then
       fstring ["Great! You're available on "; str date_str;
                (if truthy time_str then fstring [" at "; str time_str]
                 else "");
                ". Would you like me to book an appointment?"]
     else
       fstring ["You have a conflict on "; str date_str;
                (if truthy time_str then fstring [" at "; str time_str]
                 else "");
                ". Would you like me to suggest some alternative times?"] in
   ctx <~ lift (unpack (context_of ai_response)) ;;
   ret [("message", JStr message);
        ("context",
         JObj (dict_set ctx "last_availability_check"
                 (JObj [("date", date_str); ("time", time_str);
                        ("available", JBool is_available)])))])%agent.

Definition _check_availability (parameters : json) (ai_response : dict)
  : M dict :=
  (date_str <~ lift (get parameters "date" JNull) ;;
   time_str <~ lift (get parameters "time" JNull) ;;
   duration <~ lift (get parameters "duration" (JNum 60)) ;;
   if negb (truthy date_str) then
     ret [("message",
           JStr "I need a specific date to check availability. What date are you thinking about?");
          ("context", context_of ai_response)]
   else
     try_except
       (_check_availability_try date_str time_str duration ai_response)
       (fun e =>
          ret [("message",
                JStr (fstring ["I had trouble checking your calendar: ";
                               exn_text e]));
               ("context", context_of ai_response)]))%agent.

(** The message after [create_event] returned. *)
Definition booked_message (title date time : json) (duration : json)
    (event_id : option string) : string :=
  match event_id with
  | Some event_id =>
      if negb (String.eqb event_id "") then
        fstring ["Perfect! I've booked '"; str title; "' for "; str date;
                 " at "; str time; ".";
                 (if negb (eq_int duration 60)
                  then fstring [" Duration: "; str duration; " minutes."]
                  else "");
                 " Event ID: "; event_id]
      else "I had trouble booking the appointment. Please try again."
  | None => "I had trouble booking the appointment. Please try again."
  end.

(** The [try] block of [_book_appointment]. *)
Definition _book_appointment_try (parameters : json) (ai_response : dict)
  : M dict :=
  (date <~ lift (subscript parameters "date") ;;
   time <~ lift (subscript parameters "time") ;;
   let datetime_str := fstring [str date; " "; str time] in
   start_time <~ lift (strptime lib datetime_str "%Y-%m-%d %H:%M") ;;
   duration <~ lift (get parameters "duration" (JNum 60)) ;;
   is_available <~ call_check_availability start_time duration ;;
   if negb is_available then
     ret [("message",
           JStr (fstring ["There's a conflict at "; str time; " on ";
                          str date;
                          ". Would you like me to suggest alternative times?"]));
          ("context", context_of ai_response)]
   else
     title <~ lift (subscript parameters "title") ;;
     description <~ lift (get parameters "description" (JStr "")) ;;
     event_id <~
       call_create_event ["title"; "start_time"; "duration"; "description"]
         title start_time duration description ;;
     let message := booked_message title date time duration event_id in
     ctx <~ lift (unpack (context_of ai_response)) ;;
     ret [("message", JStr message);
          ("context",
           JObj (dict_set ctx "last_booking"
                   (JObj [("event_id",
                           match event_id with
                           | Some i => JStr i
                           | None => JNull
                           end);
                          ("title", title);
                          ("datetime", JStr datetime_str)])))])%agent.

Definition _book_appointment (parameters : json) (ai_response : dict)
  : M dict :=
  (let required_fields := ["date"; "time"; "title"] in
   missing_fields <~ lift (missing_among parameters required_fields) ;;
   match missing_fields with
   | _ :: _ =>
       ctx <~ lift (unpack (context_of ai_response)) ;;
       ret [("message",
             JStr (fstring ["I need more information to book the appointment. Please provide: ";
                            String.concat ", " missing_fields]));
            ("context", JObj (dict_set ctx "pending_booking" parameters))]
   | [] =>
       try_except
         (_book_appointment_try parameters ai_response)
         (fun e =>
            ret [("message",
                  JStr (fstring ["I encountered an error while booking: ";
                                 exn_text e]));
                 ("context", context_of ai_response)])
   end)%agent.

(** The lines [f"{i}. {formatted_time}\n"] of [enumerate(slots, i)]. *)
Fixpoint numbered_lines (i : nat) (slots : list datetime) : string :=
  match slots with
  | [] => ""
  | time_slot :: rest =>
      let formatted_time := strftime_HM time_slot in
      String.append (fstring [str_of_nat i; ". "; formatted_time; nl])
                    (numbered_lines (S i) rest)
  end.

(** The [try] block of [_suggest_times]. *)
Definition _suggest_times_try (date_str duration : json) (ai_response : dict)
  : M dict :=
  (target_date <~ lift (strptime_value date_str "%Y-%m-%d") ;;
   suggestions <~ call_suggest_times target_date duration ;;
   let message :=
     match suggestions with
     | _ :: _ =>
         fstring ["Here are some available times on "; str date_str; ":"; nl;
                  numbered_lines 1 (slice_to 5 suggestions);
                  nl; "Which time works best for you?"]
     | [] =>
         fstring ["I couldn't find any available slots on "; str date_str;
                  ". Would you like to try a different date?"]
     end in
   ctx <~ lift (unpack (context_of ai_response)) ;;
   ret [("message", JStr message);
        ("context",
         JObj (dict_set ctx "suggested_times"
                 (JList (map (fun t => JStr (strftime_HM t))
                           (slice_to 5 suggestions)))))])%agent.

Definition _suggest_times (parameters : json) (ai_response : dict)
  : M dict :=
  (date_str <~ lift (get parameters "date" JNull) ;;
   duration <~ lift (get parameters "duration" (JNum 60)) ;;
   if negb (truthy date_str) then
     ret [("message",
           JStr "What date would you like me to check for available times?");
          ("context", context_of ai_response)]
   else
     try_except
       (_suggest_times_try date_str duration ai_response)
       (fun e =>
          ret [("message",
                JStr (fstring ["I had trouble finding available times: ";
                               exn_text e]));
               ("context", context_of ai_response)]))%agent.

(** [ai_response.get('action')] and [ai_response.get('parameters', {})]. *)
Definition action_of (ai_response : dict) : json :=
  match dict_get ai_response "action" with Some a => a | None => JNull end.

Definition parameters_of (ai_response : dict) : json :=
  match dict_get ai_response "parameters" with
  | Some p => p
  | None => JObj []
  end.

Definition _execute_action (ai_response : dict) : M dict :=
  let action := action_of ai_response in
  let parameters := parameters_of ai_response in
  try_except
    (if eq_str action "check_availability" then
       _check_availability parameters ai_response
     else if eq_str action "book_appointment" then
       _book_appointment parameters ai_response
     else if eq_str action "suggest_times" then
       _suggest_times parameters ai_response
     else ret ai_response)
    (fun e =>
       ret [("message",
             JStr (fstring ["I had trouble with that request: "; exn_text e;
                            ". Could you please try again?"]));
            ("context", context_of ai_response)]).

(** The prompt is a function of the user message and the context, so the
    oracle takes these two. *)
Definition _get_ai_response (user_message : string) (context : dict)
  : result json :=
  (content <- chat_completion env user_message context ;;
   match json_loads lib content with
   | Ok v => Ok v
   | Raise e =>
       if String.eqb (exn_type e) "JSONDecodeError" then
         Ok (JObj [("message", JStr content);
                   ("action", JStr "general_chat");
                   ("context", JObj context)])
       else Raise e
   end)%result.

(** The two assignments [ai_response['message'] = ...] and
    [ai_response['context'] = ...] of [process_message]. *)
Definition fold_result (ai_response res : dict) : result dict :=
  (message0 <- getitem ai_response "message" ;;
   let ai_response :=
     dict_set ai_response "message"
       (match dict_get res "message" with
        | Some m => m
        | None => message0
        end) in
   let ai_response :=
     dict_set ai_response "context"
       (match dict_get res "context" with
        | Some c => c
        | None => context_of ai_response
        end) in
   Ok ai_response)%result.

(** The body of the [try] of [process_message]. *)
Definition process_message_body (user_message : string) (context : dict)
  : M dict :=
  (v <~ lift (_get_ai_response user_message context) ;;
   action <~ lift (get v "action" JNull) ;;
   ai_response <~ lift (unpack v) ;;
   if truthy action then
     action' <~ lift (getitem ai_response "action") ;;
     if negb (eq_str action' "general_chat") then
       res <~ _execute_action ai_response ;;
       if truthy (JObj res) then lift (fold_result ai_response res)
       else ret ai_response
     else ret ai_response
   else ret ai_response)%agent.

Definition process_message (user_message : string) (context : option dict)
  : M dict :=
  let context := match context with Some c => c | None => [] end in
  try_except (process_message_body user_message context)
    (fun e =>
       ret [("message",
             JStr (fstring ["I encountered an error: "; exn_text e;
                            ". Please try again."]));
            ("action", JStr "error");
            ("context", JObj context)]).

End Agent.

End AppointmentAgent.

(* ================================================================== *)
(** ** Library functions for the examples *)

(** Concrete stand-ins for the functions of [library], used to run the
    model on examples.  Each agrees with the Python function on the text it
    accepts; text it refuses may be accepted by Python (fractions and
    escapes in JSON, fields without leading zeros in dates). *)
Module Sample.

Definition dq : ascii := "034"%char.

Definition digit (c : ascii) : option Z :=
  let n := nat_of_ascii c in
  if ((48 <=? n) && (n <=? 57))%nat then Some (Z.of_nat (n - 48)) else None.

Definition is_ws (c : ascii) : bool :=
  let n := nat_of_ascii c in
  ((n =? 32) || (n =? 9) || (n =? 10) || (n =? 13))%nat.

Fixpoint skip_ws (cs : list ascii) : list ascii :=
  match cs with
  | c :: rest => if is_ws c then skip_ws rest else cs
  | [] => []
  end.

(** The characters up to the closing quote; escapes are refused. *)
Fixpoint take_string (cs : list ascii) (acc : list ascii)
  : option (string * list ascii) :=
  match cs with
  | [] => None
  | c :: rest =>
      if Ascii.eqb c dq then Some (string_of_list_ascii (rev acc), rest)
      else if Ascii.eqb c "\"%char || (nat_of_ascii c <? 32)%nat then None
      else take_string rest (c :: acc)
  end.

Fixpoint take_digits (cs : list ascii) (acc : Z) : Z * list ascii :=
  match cs with
  | c :: rest =>
      match digit c with
      | Some d => take_digits rest (acc * 10 + d)
      | None => (acc, cs)
      end
  | [] => (acc, [])
  end.

(** An integer without fraction or exponent. *)
Definition take_number (cs : list ascii) : option (Z * list ascii) :=
  let '(sign, body) :=
    match cs with
    | c :: rest => if Ascii.eqb c "-"%char then (-1, rest) else (1, cs)
    | [] => (1, cs)
    end in
  match body with
  | c :: rest =>
      match digit c with
      | Some d =>
          let '(n, rest') :=
            if (d =? 0)%Z then (0, rest) else take_digits rest d in
          match rest' with
          | c' :: _ =>
              if existsb (Ascii.eqb c') ["."; "e"; "E"]%char
                 || match digit c' with Some _ => true | None => false end
              then None else Some (sign * n, rest')
          | [] => Some (sign * n, rest')
          end
      | None => None
      end
  | [] => None
  end.

Fixpoint strip_prefix (p cs : list ascii) : option (list ascii) :=
  match p, cs with
  | [], _ => Some cs
  | a :: p', c :: cs' => if Ascii.eqb a c then strip_prefix p' cs' else None
  | _ :: _, [] => None
  end.

Fixpoint value (fuel : nat) (cs : list ascii) {struct fuel}
  : option (json * list ascii) :=
  match fuel with
  | O => None
  | S fuel =>
      match skip_ws cs with
      | [] => None
      | c :: rest =>
          if Ascii.eqb c "{"%char then
            match skip_ws rest with
            | c' :: rest' =>
                if Ascii.eqb c' "}"%char then Some (JObj [], rest')
                else members fuel (c' :: rest') []
            | [] => None
            end
          else if Ascii.eqb c "["%char then
            match skip_ws rest with
            | c' :: rest' =>
                if Ascii.eqb c' "]"%char then Some (JList [], rest')
                else elements fuel (c' :: rest') []
            | [] => None
            end
          else if Ascii.eqb c dq then
            match take_string rest [] with
            | Some (s, rest') => Some (JStr s, rest')
            | None => None
            end
          else
            match strip_prefix (list_ascii_of_string "null") (c :: rest),
                  strip_prefix (list_ascii_of_string "true") (c :: rest),
                  strip_prefix (list_ascii_of_string "false") (c :: rest) with
            | Some r, _, _ => Some (JNull, r)
            | _, Some r, _ => Some (JBool true, r)
            | _, _, Some r => Some (JBool false, r)
            | None, None, None =>
                match take_number (c :: rest) with
                | Some (n, r) => Some (JNum n, r)
                | None => None
                end
            end
      end
  end
with members (fuel : nat) (cs : list ascii) (acc : dict) {struct fuel}
  : option (json * list ascii) :=
  match fuel with
  | O => None
  | S fuel =>
      match skip_ws cs with
      | c :: rest =>
          if Ascii.eqb c dq then
            match take_string rest [] with
            | Some (k, rest1) =>
                match skip_ws rest1 with
                | c1 :: rest2 =>
                    if Ascii.eqb c1 ":"%char then
                      match value fuel rest2 with
                      | Some (v, rest3) =>
                          let acc := dict_set acc k v in
                          match skip_ws rest3 with
                          | c3 :: rest4 =>
                              if Ascii.eqb c3 ","%char then members fuel rest4 acc
                              else if Ascii.eqb c3 "}"%char
                                   then Some (JObj acc, rest4)
                                   else None
                          | [] => None
                          end
                      | None => None
                      end
                    else None
                | [] => None
                end
            | None => None
            end
          else None
      | [] => None
      end
  end
with elements (fuel : nat) (cs : list ascii) (acc : list json) {struct fuel}
  : option (json * list ascii) :=
  match fuel with
  | O => None
  | S fuel =>
      match value fuel cs with
      | Some (v, rest) =>
          match skip_ws rest with
          | c :: rest' =>
              if Ascii.eqb c ","%char then elements fuel rest' (acc ++ [v])
              else if Ascii.eqb c "]"%char then Some (JList (acc ++ [v]), rest')
                   else None
          | [] => None
          end
      | None => None
      end
  end.

(** [json.loads] on integers, literals, strings without escapes, arrays
    and objects. *)
Definition json_loads (s : string) : result json :=
  let cs := list_ascii_of_string s in
  match value (S (List.length cs)) cs with
  | Some (v, rest) =>
      match skip_ws rest with
      | [] => Ok v
      | _ :: _ => Raise (Exn "JSONDecodeError" "Extra data")
      end
  | None => Raise (Exn "JSONDecodeError" "Expecting value")
  end.

(** A JSON text of a value (strings are written without escapes). *)
Fixpoint dumps (v : json) : string :=
  match v with
  | JNull => "null"
  | JBool b => if b then "true" else "false"
  | JNum n => str_of_Z n
  | JStr s => String dq (String.append s (String dq ""))
  | JList l =>
      fstring ["["; String.concat ", " (map dumps l); "]"]
  | JObj d =>
      fstring ["{";
               String.concat ", "
                 (map (fun kv =>
                         fstring [String dq (String.append (fst kv) (String dq ""));
                                  ": "; dumps (snd kv)]) d);
               "}"]
  end.

Definition is_leap (year : Z) : bool :=
  ((year mod 4 =? 0) && (negb (year mod 100 =? 0) || (year mod 400 =? 0)))%Z.

Definition days_in_month (year month : Z) : Z :=
  if (month =? 2)%Z then (if is_leap year then 29 else 28)
  else if existsb (Z.eqb month) [4; 6; 9; 11] then 30 else 31.

Definition days_before_year (year : Z) : Z :=
  let y := year - 1 in y * 365 + y / 4 - y / 100 + y / 400.

Fixpoint days_before_month (year : Z) (months : nat) : Z :=
  match months with
  | O => 0
  | S m => days_before_month year m + days_in_month year (Z.of_nat (S m))
  end.

(** [date(year, month, day).toordinal()]. *)
Definition ymd2ord (year month day : Z) : Z :=
  days_before_year year + days_before_month year (Z.to_nat (month - 1)) + day.

(** A field of exactly [n] decimal digits. *)
Definition field (s : string) (start n : nat) : option Z :=
  let cs := list_ascii_of_string (String.substring start n s) in
  if (List.length cs =? n)%nat && forallb (fun c => match digit c with Some _ => true | None => false end) cs
  then Some (fst (take_digits cs 0)) else None.

Definition separator (s : string) (i : nat) (c : ascii) : bool :=
  match String.get i s with
  | Some c' => Ascii.eqb c c'
  | None => false
  end.

Definition parse_date (s : string) : option Z :=
  match field s 0 4, field s 5 2, field s 8 2 with
  | Some y, Some m, Some d =>
      if separator s 4 "-"%char && separator s 7 "-"%char
         && ((1 <=? y) && (1 <=? m) && (m <=? 12) && (1 <=? d)
             && (d <=? days_in_month y m))%Z
      then Some (ymd2ord y m d) else None
  | _, _, _ => None
  end.

(** [datetime.strptime] for the two formats of the agent, on zero-padded
    text. *)
Definition strptime (s format : string) : result datetime :=
  let failure :=
    Raise (Exn "ValueError"
             (fstring ["time data '"; s; "' does not match format '"; format; "'"])) in
  if String.eqb format "%Y-%m-%d" then
    match parse_date s with
    | Some o =>
        if (String.length s =? 10)%nat then Ok (mkdt o 0 0 0 0) else failure
    | None => failure
    end
  else if String.eqb format "%Y-%m-%d %H:%M" then
    match parse_date s, field s 11 2, field s 14 2 with
    | Some o, Some h, Some m =>
        if (String.length s =? 16)%nat && separator s 10 " "%char
           && separator s 13 ":"%char && (h <? 24)%Z && (m <? 60)%Z
        then Ok (mkdt o h m 0 0) else failure
    | _, _, _ => failure
    end
  else failure.

(** The [repr] slot is filled with [dumps]; the examples never print a
    list or a dict. *)
Definition lib : library := mklib json_loads strptime dumps.

End Sample.

(* ================================================================== *)
(** ** Vocabulary of the properties *)

(** The overlap test of the design document, on two half-open intervals:
    [aStart < bEnd && bStart < aEnd]. *)
Definition overlap (a_start a_end b_start b_end : Z) : Prop :=
  a_start < b_end /\ b_start < a_end.

(** The microseconds of [d] minutes. *)
Definition span (d : Z) : Z := d * 60000000.

(** The slot [[s, s + d)] overlaps the interval of the stored event. *)
Definition event_overlaps (s : datetime) (d : Z)
    (ev : MockCalendarService.event) : Prop :=
  overlap (to_micros s) (to_micros s + span d)
    (to_micros (MockCalendarService.ev_start_time ev))
    (to_micros (MockCalendarService.ev_start_time ev)
     + span (MockCalendarService.ev_duration ev)).


(** Position of the candidate [hour:minute] in a scan that starts at
    [start_hour]. *)
Definition scan_index (start_hour hour minute : Z) : nat :=
  Z.to_nat (2 * (hour - start_hour) + minute / 30).

Section Candidates.

Variable clock : nat -> datetime.
Variable answers : nat -> datetime -> bool.
Variable target_date : datetime.

(** The candidates of one hour, numbered from [k]. *)
Fixpoint minute_candidates (k : nat) (hour : Z) (minutes : list Z)
  : list (nat * datetime) :=
  match minutes with
  | [] => []
  | minute :: rest =>
      (k, replace_time target_date hour minute)
      :: minute_candidates (S k) hour rest
  end.

(** The candidates of a scan, in scan order, numbered from [k]. *)
Fixpoint hour_candidates (k : nat) (hours : list Z) : list (nat * datetime) :=
  match hours with
  | [] => []
  | hour :: rest =>
      minute_candidates k hour [0; 30] ++ hour_candidates (k + 2) rest
  end.

(** The candidates that are not in the past when examined and that the
    calendar reports free. *)
Fixpoint accepted (cs : list (nat * datetime)) : list datetime :=
  match cs with
  | [] => []
  | (k, c) :: rest =>
      if negb (Datetime.lt c (clock k)) && answers k c
      then c :: accepted rest
      else accepted rest
  end.

End Candidates.

(** The answer of a check as a truth value; a check that raises reports no
    free slot. *)
Definition answer_of (check : nat -> datetime -> result bool) (k : nat)
    (c : datetime) : bool :=
  match check k c with
  | Ok available => available
  | Raise _ => false
  end.

(** A scan written as one loop over the numbered candidates, stopping once
    it holds [cap] suggestions. *)
Fixpoint scan_flat (clock : nat -> datetime)
    (check : nat -> datetime -> result bool) (cap : nat)
    (cs : list (nat * datetime)) (suggestions : list datetime)
  : result (list datetime) :=
  match cs with
  | [] => Ok suggestions
  | (k, c) :: rest =>
      if Datetime.lt c (clock k) then scan_flat clock check cap rest suggestions
      else
        (available <- check k c ;;
         let suggestions :=
           if available then suggestions ++ [c] else suggestions in
         if (cap <=? List.length suggestions)%nat then Ok suggestions
         else scan_flat clock check cap rest suggestions)%result
  end.

(** The end of the slot [[s, s + d)] is a datetime of the years 1..9999. *)
Definition ends_in_range (s : datetime) (d : Z) : Prop :=
  exists e, add_minutes s d = Ok e.

(** Every stored event ends in the years 1..9999. *)
Definition events_end_in_range (m : MockCalendarService.t) : Prop :=
  Forall (fun ev => ends_in_range (MockCalendarService.ev_start_time ev)
                      (MockCalendarService.ev_duration ev))
         (MockCalendarService.events m).


(** No availability check of a grid candidate raises. *)
Definition checks_return (env : environment) (self : GoogleCalendarService.t)
    (target_date : datetime) (duration_minutes : Z)
    (business_hours_only : bool) : Prop :=
  forall h m,
    fst (hour_bounds business_hours_only) <= h
      < snd (hour_bounds business_hours_only) ->
    (m = 0 \/ m = 30) ->
    exists available,
      GoogleCalendarService.check_availability env
        (scan_index (fst (hour_bounds business_hours_only)) h m) self
        (replace_time target_date h m) duration_minutes
      = Ok available.



(** The remote calendar and the in-memory one give the same availability
    answers on the candidates of a scan. *)
Definition same_answers (env : environment) (m : MockCalendarService.t)
    (target_date : datetime) (duration_minutes : Z)
    (business_hours_only : bool) : Prop :=
  forall h mi,
    fst (hour_bounds business_hours_only) <= h
      < snd (hour_bounds business_hours_only) ->
    (mi = 0 \/ mi = 30) ->
    GoogleCalendarService.check_availability env
      (scan_index (fst (hour_bounds business_hours_only)) h mi)
      GoogleCalendarService.LiveService (replace_time target_date h mi)
      duration_minutes
    = MockCalendarService.check_availability m (replace_time target_date h mi)
        duration_minutes.

(** The two [suggest_times] return the same sequence on the same answers. *)
Definition suggest_times_agree : Prop :=
  forall env m target_date duration_minutes business_hours_only,
    same_answers env m target_date duration_minutes business_hours_only ->
    GoogleCalendarService.suggest_times env GoogleCalendarService.LiveService
      target_date duration_minutes business_hours_only
    = mock_suggest_times env m target_date duration_minutes
        business_hours_only.

(* ================================================================== *)
(** ** Worlds for the examples *)

Module Examples.

Import GoogleCalendarService AppointmentAgent.

(** 2025-03-10 at midnight. *)
Definition day : datetime := mkdt 739320 0 0 0 0.

(** A clock that stands at noon of the day before. *)
Definition clock : nat -> datetime := fun _ => mkdt 739319 12 0 0 0.

(** A remote calendar with a standing event from 14:00 to 15:00 and nothing
    else, and a language model that answers [content]. *)
Definition env_answering (content : result string) : environment :=
  {| now := clock;
     events_list := fun _ time_min _ =>
                      Ok (if (hour time_min =? 14)%Z then [JObj []] else []);
     events_insert := fun _ _ _ _ => Ok (Some "evt1");
     chat_completion := fun _ _ => content |}.

Definition env : environment := env_answering (Ok "Hello there").

(** The agent right after start-up, on the in-memory calendar. *)
Definition fresh : world :=
  {| calendar_service := MockService MockCalendarService.init; calls := [] |}.

End Examples.

(* ================================================================== *)
(** ** Vocabulary of the properties of a turn *)

Module Turn.

Import GoogleCalendarService AppointmentAgent.

(** The actions of the design document. *)
Definition documented_actions : list string :=
  ["check_availability"; "book_appointment"; "suggest_times"; "general_chat"].

(** A response with a message string and a context mapping. *)
Definition well_formed_response (d : dict) : Prop :=
  exists m c,
    dict_get d "message" = Some (JStr m) /\
    dict_get d "context" = Some (JObj c).

(** The context a turn works with: [{}] replaces [None]. *)
Definition input_context (context : option dict) : dict :=
  match context with Some c => c | None => [] end.

(** Every turn ends in a well-formed response. *)
Definition always_well_formed : Prop :=
  forall lib env user_message context w,
  exists d w',
    process_message lib env user_message context w = (Ok d, w') /\
    well_formed_response d.

(** What a handler returns: a message string, and a context that is the
    context of the extractor's response or a mapping built from it. *)
Definition reply_shape (ai_response res : dict) : Prop :=
  exists m c,
    res = [("message", JStr m); ("context", c)] /\
    (c = context_of ai_response \/ exists ctx, c = JObj ctx).

(** No event was created between two worlds: the calendar is the same and
    [create_event] was not entered. *)
Definition no_event_created (w w' : world) : Prop :=
  calendar_service w' = calendar_service w /\
  forall t s d x,
    In (CreateEventCall t s d x) (calls w') ->
    In (CreateEventCall t s d x) (calls w).

(** The fields among [fields] that [parameters] lacks: absent, [null], or
    empty ([""], [0], [false], [[]], [{}]). *)
Definition missing_fields (parameters : dict) (fields : list string)
  : list string :=
  filter (fun field =>
            negb (truthy (match dict_get parameters field with
                          | Some v => v
                          | None => JNull
                          end))) fields.


(** The guarded block of the handler of [ai_response] raised [e] and left
    the world [w']; [prefix] is the opening of the handler's apology. *)
Inductive guarded_failure (lib : library) (env : environment)
    (ai_response : dict) (w : world) : exn -> world -> string -> Prop :=
| check_availability_fails :
    forall date_str time_str duration e w',
      action_of ai_response = JStr "check_availability" ->
      get (parameters_of ai_response) "date" JNull = Ok date_str ->
      get (parameters_of ai_response) "time" JNull = Ok time_str ->
      get (parameters_of ai_response) "duration" (JNum 60) = Ok duration ->
      truthy date_str = true ->
      _check_availability_try lib env date_str time_str duration ai_response w
      = (Raise e, w') ->
      guarded_failure lib env ai_response w e w'
        "I had trouble checking your calendar: "
| book_appointment_fails :
    forall e w',
      action_of ai_response = JStr "book_appointment" ->
      missing_among (parameters_of ai_response) ["date"; "time"; "title"]
      = Ok [] ->
      _book_appointment_try lib env (parameters_of ai_response) ai_response w
      = (Raise e, w') ->
      guarded_failure lib env ai_response w e w'
        "I encountered an error while booking: "
| suggest_times_fails :
    forall date_str duration e w',
      action_of ai_response = JStr "suggest_times" ->
      get (parameters_of ai_response) "date" JNull = Ok date_str ->
      get (parameters_of ai_response) "duration" (JNum 60) = Ok duration ->
      truthy date_str = true ->
      _suggest_times_try lib env date_str duration ai_response w
      = (Raise e, w') ->
      guarded_failure lib env ai_response w e w'
        "I had trouble finding available times: ".

(** A failure inside a handler returns the context the caller passed in. *)
Definition failure_keeps_input_context : Prop :=
  forall lib env user_message context w ai_response e w' prefix,
    _get_ai_response lib env user_message context = Ok (JObj ai_response) ->
    guarded_failure lib env ai_response w e w' prefix ->
    exists d w'',
      process_message lib env user_message (Some context) w = (Ok d, w'') /\
      dict_get d "context" = Some (JObj context).

(** The text decodes to the shape the extractor is asked for: an object
    with a message string and an action string. *)
Definition parses_as_intent (lib : library) (raw : string) : Prop :=
  exists d m a,
    json_loads lib raw = Ok (JObj d) /\
    dict_get d "message" = Some (JStr m) /\
    dict_get d "action" = Some (JStr a).

(** The reply to a text that could not be used. *)
Definition general_chat_fallback (raw : string) (context : dict) : dict :=
  [("message", JStr raw); ("action", JStr "general_chat");
   ("context", JObj context)].

(** Every output that does not parse as an intent degrades to general
    chat. *)
Definition malformed_output_degrades : Prop :=
  forall lib env user_message context w raw,
    chat_completion env user_message context = Ok raw ->
    ~ parses_as_intent lib raw ->
    process_message lib env user_message (Some context) w
    = (Ok (general_chat_fallback raw context), w).

(** The response of a turn that an exception escaped. *)
Definition error_response (e : exn) (context : dict) : dict :=
  [("message",
    JStr (fstring ["I encountered an error: "; exn_text e;
                   ". Please try again."]));
   ("action", JStr "error");
   ("context", JObj context)].

End Turn.

(** Requests and extractor outputs for the examples. *)
Module Requests.

Import GoogleCalendarService AppointmentAgent.

(** Booking "Sync" on 2025-03-10 at [time]. *)
Definition sync_at (time : string) : dict :=
  [("date", JStr "2025-03-10"); ("time", JStr time); ("title", JStr "Sync")].

(** The same request without a title. *)
Definition untitled : dict :=
  [("date", JStr "2025-03-10"); ("time", JStr "10:00"); ("title", JStr "")].

(** An extractor response that asks for an availability check on a date
    that is no date, and that carries a context of its own. *)
Definition check_tomorrow : dict :=
  [("message", JStr "Let me check.");
   ("action", JStr "check_availability");
   ("parameters", JObj [("date", JStr "tomorrow")]);
   ("context", JObj [("user_intent", JStr "check")])].

(** A language model that answers with the JSON text of [check_tomorrow]. *)
Definition env_check_tomorrow : environment :=
  Examples.env_answering (Ok (Sample.dumps (JObj check_tomorrow))).

(** A language model whose call fails. *)
Definition env_unreachable : environment :=
  Examples.env_answering (Raise (Exn "APIConnectionError" "Connection error.")).

End Requests.

(* ================================================================== *)
(** ** The rest of the calendar service *)

Module CalendarQueries.

Import GoogleCalendarService.

(** [a <= b] on datetimes. *)
Definition le (a b : datetime) : bool := (to_micros a <=? to_micros b)%Z.

(** The arguments of one [create_event] call. *)
Record booking : Type := mkbooking {
  b_title : string;
  b_start_time : datetime;
  b_duration : Z;
  b_description : string
}.

(** The in-memory calendar after one more [create_event]. *)
Definition book (self : MockCalendarService.t) (b : booking)
  : MockCalendarService.t :=
  snd (MockCalendarService.create_event self (b_title b) (b_start_time b)
         (b_duration b) (b_description b)).

(** The in-memory calendar after [__init__] and the calls [bs], in order. *)
Definition booked (bs : list booking) : MockCalendarService.t :=
  fold_left book bs MockCalendarService.init.

(** The identifier [f"mock_event_{n}"]. *)
Definition mock_event_id (n : nat) : string :=
  fstring ["mock_event_"; str_of_nat n].

Section Queries.

(** [datetime.isoformat], a library function. *)
Variable isoformat : datetime -> string.

(** The dict [get_events] builds for a stored event. *)
Definition event_entry (ev : MockCalendarService.event) : json :=
  JObj [("id", JStr (MockCalendarService.ev_id ev));
        ("summary", JStr (MockCalendarService.ev_title ev));
        ("start",
         JObj [("dateTime",
                JStr (isoformat (MockCalendarService.ev_start_time ev)))]);
        ("description", JStr (MockCalendarService.ev_description ev))].

(** The loop of [MockCalendarService.get_events]. *)
Fixpoint filter_events (start_date end_date : datetime)
    (evs : list MockCalendarService.event) (filtered_events : list json)
  : list json :=
  match evs with
  | [] => filtered_events
  | ev :: rest =>
      if le start_date (MockCalendarService.ev_start_time ev)
         && le (MockCalendarService.ev_start_time ev) end_date
      then filter_events start_date end_date rest
             (filtered_events ++ [event_entry ev])
      else filter_events start_date end_date rest filtered_events
  end.

(** [MockCalendarService.get_events]. *)
Definition mock_get_events (self : MockCalendarService.t)
    (start_date end_date : datetime) : list json :=
  filter_events start_date end_date (MockCalendarService.events self) [].

(** [GoogleCalendarService.get_events]. *)
Definition get_events (env : environment) (self : GoogleCalendarService.t)
    (start_date end_date : datetime) : list json :=
  match self with
  | MockService m => mock_get_events m start_date end_date
  | LiveService =>
      match events_list env 0 start_date end_date with
      | Ok items => items
      | Raise _ => []
      end
  end.

End Queries.

(** The start of the stored event lies in [[start_date, end_date]], both
    ends included. *)
Definition starts_within (start_date end_date : datetime)
    (ev : MockCalendarService.event) : bool :=
  le start_date (MockCalendarService.ev_start_time ev)
  && le (MockCalendarService.ev_start_time ev) end_date.

(** The cap of [suggest_times] for the calendar at hand. *)
Definition cap (self : GoogleCalendarService.t) : nat :=
  match self with
  | MockService _ => 5
  | LiveService => 10
  end.

(** The candidate [hour:minute] of a scan on [target_date] was in the
    future when examined and reported free. *)
Definition free_when_scanned (env : environment)
    (self : GoogleCalendarService.t) (target_date : datetime)
    (duration_minutes : Z) (business_hours_only : bool) (h m : Z) : Prop :=
  let k := scan_index (fst (hour_bounds business_hours_only)) h m in
  let c := replace_time target_date h m in
  Datetime.lt c (now env k) = false /\
  check_availability env k self c duration_minutes = Ok true.

(** The candidate [hour:minute] of a scan on [target_date] was in the past
    when examined, or its availability check answered [False]. *)
Definition past_or_busy (env : environment)
    (self : GoogleCalendarService.t) (target_date : datetime)
    (duration_minutes : Z) (business_hours_only : bool) (h m : Z) : Prop :=
  let k := scan_index (fst (hour_bounds business_hours_only)) h m in
  let c := replace_time target_date h m in
  Datetime.lt c (now env k) = true \/
  check_availability env k self c duration_minutes = Ok false.

(** [hour:minute] is a candidate of the scan. *)
Definition on_grid (business_hours_only : bool) (h m : Z) : Prop :=
  fst (hour_bounds business_hours_only) <= h
    < snd (hour_bounds business_hours_only) /\
  (m = 0 \/ m = 30).

End CalendarQueries.

(* ================================================================== *)
(** ** What a turn does to the world *)

Module Effects.

Import AppointmentAgent.

(** The start of every stored event is at or after the end of the slot
    [[s, s + d)]. *)
Definition all_start_after (m : MockCalendarService.t) (s : datetime) (d : Z)
  : Prop :=
  Forall (fun ev =>
            to_micros s + span d
            <= to_micros (MockCalendarService.ev_start_time ev))
         (MockCalendarService.events m).

(** The reply of [_suggest_times] as a function of what the calendar
    returned. *)
Definition suggestions_reply (lib : library) (ai_response : dict)
    (date_str : json)
    (found : result (list datetime)) : result dict :=
  match found with
  | Raise e => Raise e
  | Ok suggestions =>
      match unpack (context_of ai_response) with
      | Raise e => Raise e
      | Ok ctx =>
          Ok [("message",
               JStr match suggestions with
                    | _ :: _ =>
                        fstring ["Here are some available times on ";
                                 str lib date_str; ":"; nl;
                                 numbered_lines 1 (slice_to 5 suggestions);
                                 nl; "Which time works best for you?"]
                    | [] =>
                        fstring ["I couldn't find any available slots on ";
                                 str lib date_str;
                                 ". Would you like to try a different date?"]
                    end);
              ("context",
               JObj (dict_set ctx "suggested_times"
                       (JList (map (fun t => JStr (strftime_HM t))
                                 (slice_to 5 suggestions)))))]
      end
  end.

End Effects.

(* ================================================================== *)
(** ** utils.py and the chat step of app.py *)

Module Utils.

(** The loop body [f"{hour:02d}:{minute:02d}"] over the minutes. *)
Definition hour_labels (hour : Z) (minutes : list Z) : list string :=
  map (fun minute => fstring [two_digits hour; ":"; two_digits minute])
      minutes.

(** [get_business_hours]. *)
Definition get_business_hours : list string :=
  flat_map (fun hour => hour_labels hour [0; 30]) (range 9 17).

End Utils.

Module App.

Import AppointmentAgent.

(** An entry [{"role": ..., "content": ...}] of the chat history. *)
Record message : Type := mkmessage { role : string; content : json }.

(** The greeting [initialize_session_state] starts the history with. *)
Definition greeting : string :=
  "Hello! I'm your AI calendar assistant. I can help you check availability, book appointments, and manage your schedule. What can I help you with today?".

(** [st.session_state]: the two keys may be absent. *)
Record session_state : Type := mksession {
  messages : option (list message);
  conversation_context : option json
}.

(** [initialize_session_state] of utils.py. *)
Definition initialize_session_state (s : session_state) : session_state :=
  {| messages :=
       match messages s with
       | Some ms => Some ms
       | None => Some [mkmessage "assistant" (JStr greeting)]
       end;
     conversation_context :=
       match conversation_context s with
       | Some c => Some c
       | None => Some (JObj [])
       end |}.

Section Chat.

Variable lib : library.
Variable env : environment.
(** [st.markdown] on the message of the response. *)
Variable markdown : json -> result unit.

(** The [try] block of the chat step: the new context, then the content of
    the assistant's entry. *)
Definition respond (prompt : string) (context : dict) (w : world)
  : option json * result json * world :=
  match process_message lib env prompt (Some context) w with
  | (Raise e, w') => (None, Raise e, w')
  | (Ok response, w') =>
      let context' :=
        match dict_get response "context" with
        | Some c => c
        | None => JObj []
        end in
      (Some context',
       (m <- getitem response "message" ;;
        _ <- markdown m ;;
        Ok m)%result,
       w')
  end.

(** The chat step of [main] for a prompt, on a history and a context
    (a dict, as [process_message] expects): the new history, the new
    context and the new world. *)
Definition chat_step (prompt : string) (history : list message)
    (context : dict) (w : world) : list message * json * world :=
  let history := history ++ [mkmessage "user" (JStr prompt)] in
  match respond prompt context w with
  | (context', Ok m, w') =>
      (history ++ [mkmessage "assistant" m],
       match context' with Some c => c | None => JObj context end,
       w')
  | (context', Raise e, w') =>
      let error_msg :=
        fstring ["Sorry, I encountered an error: "; exn_text e] in
      (history ++ [mkmessage "assistant" (JStr error_msg)],
       match context' with Some c => c | None => JObj context end,
       w')
  end.

End Chat.

End App.

(* ================================================================== *)
(** ** Facts about datetimes *)

Lemma to_micros_of_micros (u : Z) : to_micros (of_micros u) = u.
Proof.
  unfold to_micros, of_micros; cbn [ordinal hour minute second microsecond].
  replace (u / 86400000000) with (u / 1000000 / 60 / 60 / 24)
    by (rewrite !Z.div_div by lia; reflexivity).
  replace (u / 3600000000) with (u / 1000000 / 60 / 60)
    by (rewrite !Z.div_div by lia; reflexivity).
  replace (u / 60000000) with (u / 1000000 / 60)
    by (rewrite !Z.div_div by lia; reflexivity).
  pose proof (Z.div_mod u 1000000 ltac:(lia)) as H1.
  pose proof (Z.div_mod (u / 1000000) 60 ltac:(lia)) as H2.
  pose proof (Z.div_mod (u / 1000000 / 60) 60 ltac:(lia)) as H3.
  pose proof (Z.div_mod (u / 1000000 / 60 / 60) 24 ltac:(lia)) as H4.
  lia.
Qed.

Lemma to_micros_shift_minutes (t : datetime) (m : Z) :
  to_micros (shift_minutes t m) = to_micros t + span m.
Proof. unfold shift_minutes, span. apply to_micros_of_micros. Qed.

Lemma timedelta_ok (m d : Z) : timedelta m = Ok d -> d = m.
Proof.
  unfold timedelta. destruct (_ && _); [|discriminate].
  intro H. now inversion H.
Qed.

(** When the sum exists it is the shifted point of time. *)
Lemma add_minutes_ok (t e : datetime) (m : Z) :
  add_minutes t m = Ok e ->
  to_micros e = to_micros t + span m /\ in_range e = true.
Proof.
  unfold add_minutes. destruct (timedelta m) as [d|x] eqn:E; cbn [bind];
    [|discriminate].
  apply timedelta_ok in E. subst d.
  destruct (in_range (shift_minutes t m)) eqn:Er; [|discriminate].
  intro H. inversion H; subst e.
  split; [apply to_micros_shift_minutes | exact Er].
Qed.



(* ================================================================== *)
(** ** The availability check of the in-memory calendar *)

(** The loop over the stored events, when it returns. *)
Lemma check_events_ok (s e : datetime) (evs : list MockCalendarService.event)
    (available : bool) :
  MockCalendarService.check_events s e evs = Ok available ->
  (available = false <->
   Exists (fun ev =>
             overlap (to_micros s) (to_micros e)
               (to_micros (MockCalendarService.ev_start_time ev))
               (to_micros (MockCalendarService.ev_start_time ev)
                + span (MockCalendarService.ev_duration ev))) evs).
Proof.
  induction evs as [|ev evs IH]; cbn [MockCalendarService.check_events].
  - intro H. inversion H; subst.
    split; [discriminate | intro H'; inversion H'].
  - destruct (add_minutes _ _) as [ee|x] eqn:Ee; cbn [bind]; [|discriminate].
    apply add_minutes_ok in Ee. destruct Ee as [Ee _].
    unfold Datetime.gt, Datetime.lt. rewrite Ee.
    destruct (to_micros s <? _)%Z eqn:E1;
      destruct (to_micros (MockCalendarService.ev_start_time ev) <? to_micros e)%Z
        eqn:E2; cbn [andb];
      try apply Z.ltb_lt in E1; try apply Z.ltb_ge in E1;
      try apply Z.ltb_lt in E2; try apply Z.ltb_ge in E2.
    + intro H. inversion H; subst.
      split; [intros _ | reflexivity].
      apply Exists_cons_hd. split; assumption.
    + intro H. rewrite (IH H). split; intro Hx.
      * now apply Exists_cons_tl.
      * inversion Hx as [? ? [_ Hb] | ]; subst; [lia | assumption].
    + intro H. rewrite (IH H). split; intro Hx.
      * now apply Exists_cons_tl.
      * inversion Hx as [? ? [Ha _] | ]; subst; [lia | assumption].
    + intro H. rewrite (IH H). split; intro Hx.
      * now apply Exists_cons_tl.
      * inversion Hx as [? ? [Ha _] | ]; subst; [lia | assumption].
Qed.


Lemma mock_check_ok (self : MockCalendarService.t) (s : datetime) (d : Z)
    (available : bool) :
  MockCalendarService.check_availability self s d = Ok available ->
  (available = false <->
   hour s = 14 \/
   Exists (event_overlaps s d) (MockCalendarService.events self)).
Proof.
  unfold MockCalendarService.check_availability.
  destruct (add_minutes s d) as [e|x] eqn:Ee; cbn [bind]; [|discriminate].
  apply add_minutes_ok in Ee. destruct Ee as [Ee _].
  destruct (hour s =? 14)%Z eqn:Eh.
  - apply Z.eqb_eq in Eh. intro H. inversion H. tauto.
  - apply Z.eqb_neq in Eh. intro H. apply check_events_ok in H.
    rewrite Ee in H. unfold event_overlaps. rewrite H. tauto.
Qed.





(* ================================================================== *)
(** ** The two scans *)

Lemma firstn_app_full {A} (n : nat) (l1 l2 : list A) :
  (n <= List.length l1)%nat -> firstn n (l1 ++ l2) = firstn n l1.
Proof.
  intro H. rewrite firstn_app.
  replace (n - List.length l1)%nat with 0%nat by lia.
  cbn [firstn]. apply app_nil_r.
Qed.

Lemma snoc_app {A} (l1 l2 : list A) (a : A) :
  l1 ++ a :: l2 = (l1 ++ [a]) ++ l2.
Proof. rewrite <- app_assoc. reflexivity. Qed.

Section ScanFacts.

Variable clock : nat -> datetime.
Variable answers : nat -> datetime -> bool.
Variable target_date : datetime.

Lemma accepted_In (cs : list (nat * datetime)) (c : datetime) :
  In c (accepted clock answers cs) ->
  exists k, In (k, c) cs /\ Datetime.lt c (clock k) = false /\
            answers k c = true.
Proof.
  induction cs as [|[k c'] cs IH]; cbn [accepted]; [intros []|].
  destruct (Datetime.lt c' (clock k)) eqn:E1; cbn [negb andb].
  - intro H. destruct (IH H) as (k0 & H0 & H1). exists k0. split; [now right|auto].
  - destruct (answers k c') eqn:E2.
    + intros [->|H].
      * exists k. split; [now left|auto].
      * destruct (IH H) as (k0 & H0 & H1). exists k0. split; [now right|auto].
    + intro H. destruct (IH H) as (k0 & H0 & H1). exists k0. split; [now right|auto].
Qed.


Lemma hour_candidates_In (a : Z) (n : nat) :
  forall (i0 k0 k : nat) (c : datetime),
    In (k, c)
       (hour_candidates target_date k0
          (map (fun i => a + Z.of_nat i) (seq i0 n))) ->
    exists (i : nat) (m : Z),
      (i0 <= i < i0 + n)%nat /\ (m = 0 \/ m = 30) /\
      c = replace_time target_date (a + Z.of_nat i) m /\
      k = (k0 + 2 * (i - i0) + Z.to_nat (m / 30))%nat.
Proof.
  induction n as [|n IH]; intros i0 k0 k c; cbn [seq map hour_candidates];
    [intros []|].
  cbn [minute_candidates app In].
  intros [H|[H|H]].
  - inversion H; subst. exists i0, 0. repeat split; auto; try lia.
    replace (i0 - i0)%nat with 0%nat by lia. cbn. lia.
  - inversion H; subst. exists i0, 30. repeat split; auto; try lia.
    replace (i0 - i0)%nat with 0%nat by lia. cbn. lia.
  - apply IH in H. destruct H as (i & m & Hi & Hm & Hc & Hk).
    exists i, m. repeat split; auto; try lia.
Qed.


End ScanFacts.

Lemma firstn_In {A} (n : nat) (l : list A) (x : A) :
  In x (firstn n l) -> In x l.
Proof.
  revert n. induction l as [|a l IH]; intros n.
  - now rewrite firstn_nil.
  - destruct n; cbn [firstn In]; [intros []|].
    intros [H|H]; [now left | right; eauto].
Qed.



Lemma scan_index_eq (a : Z) (i : nat) (m : Z) :
  m = 0 \/ m = 30 ->
  scan_index a (a + Z.of_nat i) m = (0 + 2 * (i - 0) + Z.to_nat (m / 30))%nat.
Proof.
  unfold scan_index.
  intros [-> | ->]; [change (0 / 30) with 0 | change (30 / 30) with 1]; lia.
Qed.

(** The candidates of a scan over [range(a, b)] are the grid, numbered by
    [scan_index]. *)
Lemma range_candidates_In (target_date : datetime) (a b : Z) (k : nat)
    (c : datetime) :
  In (k, c) (hour_candidates target_date 0 (range a b)) ->
  exists h m,
    a <= h < b /\ (m = 0 \/ m = 30) /\
    c = replace_time target_date h m /\ k = scan_index a h m.
Proof.
  unfold range. intro Hin. apply hour_candidates_In in Hin.
  destruct Hin as (i & m & Hi & Hm & -> & ->).
  exists (a + Z.of_nat i), m.
  rewrite scan_index_eq by exact Hm. repeat split; auto; lia.
Qed.

Section FlatScan.

Variable clock : nat -> datetime.
Variable check : nat -> datetime -> result bool.
Variable cap : nat.

Lemma scan_flat_app (cs1 cs2 : list (nat * datetime)) :
  forall s,
    (List.length s < cap)%nat ->
    scan_flat clock check cap (cs1 ++ cs2) s
    = (r <- scan_flat clock check cap cs1 s ;;
       if (cap <=? List.length r)%nat then Ok r
       else scan_flat clock check cap cs2 r)%result.
Proof.
  induction cs1 as [|[k c] cs1 IH]; intros s Hs; cbn [app scan_flat bind].
  - replace (cap <=? List.length s)%nat with false
      by (symmetry; apply Nat.leb_gt; exact Hs).
    reflexivity.
  - destruct (Datetime.lt c (clock k)); [now apply IH|].
    destruct (check k c) as [b|e]; cbn [bind]; [|reflexivity].
    destruct (cap <=? List.length (if b then s ++ [c] else s))%nat eqn:El.
    + cbn [bind]. now rewrite El.
    + apply IH. now apply Nat.leb_gt.
Qed.

(** A scan that returns gives the first [cap] accepted candidates. *)
Lemma scan_flat_ok (cs : list (nat * datetime)) :
  forall s l,
    (List.length s < cap)%nat ->
    scan_flat clock check cap cs s = Ok l ->
    l = firstn cap (s ++ accepted clock (answer_of check) cs).
Proof.
  induction cs as [|[k c] cs IH]; intros s l Hs; cbn [scan_flat accepted].
  - intro H. inversion H; subst.
    rewrite app_nil_r, firstn_all2 by lia. reflexivity.
  - destruct (Datetime.lt c (clock k)); cbn [negb andb]; [now apply IH|].
    unfold answer_of at 1.
    destruct (check k c) as [b|e]; cbn [bind]; [|discriminate].
    destruct b.
    + destruct (cap <=? List.length (s ++ [c]))%nat eqn:El.
      * apply Nat.leb_le in El. intro H. inversion H; subst.
        rewrite (snoc_app s (accepted _ _ _)).
        rewrite firstn_app_full by exact El.
        rewrite length_app in El. cbn [List.length] in El.
        rewrite firstn_all2 by (rewrite length_app; cbn [List.length]; lia).
        reflexivity.
      * apply Nat.leb_gt in El. intro H.
        rewrite (snoc_app s (accepted _ _ _)). now apply IH.
    + replace (cap <=? List.length s)%nat with false
        by (symmetry; apply Nat.leb_gt; exact Hs).
      now apply IH.
Qed.

(** A scan that returns below the cap examined every candidate that was
    not in the past, and none of the checks raised. *)
Lemma scan_flat_checked (cs : list (nat * datetime)) :
  forall s l,
    (List.length s < cap)%nat ->
    scan_flat clock check cap cs s = Ok l ->
    (List.length l < cap)%nat ->
    forall k c, In (k, c) cs -> Datetime.lt c (clock k) = false ->
                exists available, check k c = Ok available.
Proof.
  induction cs as [|[k0 c0] cs IH]; intros s l Hs; cbn [scan_flat];
    [intros _ _ k c []|].
  destruct (Datetime.lt c0 (clock k0)) eqn:Ep.
  - intros H Hl k c [Heq|Hin] Hpast.
    + inversion Heq; subst. congruence.
    + now apply (IH s l Hs H Hl).
  - destruct (check k0 c0) as [b|e] eqn:Ec; cbn [bind]; [|discriminate].
    destruct (cap <=? List.length (if b then s ++ [c0] else s))%nat eqn:El.
    + apply Nat.leb_le in El. intros H Hl. inversion H; subst. lia.
    + apply Nat.leb_gt in El. intros H Hl k c [Heq|Hin] Hpast.
      * inversion Heq; subst. eauto.
      * now apply (IH _ l El H Hl).
Qed.

(** A scan returns when no check it can reach raises. *)
Lemma scan_flat_returns (cs : list (nat * datetime)) :
  forall s,
    (forall k c, In (k, c) cs ->
                 Datetime.lt c (clock k) = true \/
                 exists available, check k c = Ok available) ->
    exists l, scan_flat clock check cap cs s = Ok l.
Proof.
  induction cs as [|[k c] cs IH]; intros s H; cbn [scan_flat]; [eauto|].
  destruct (Datetime.lt c (clock k)) eqn:Ep.
  - apply IH. intros k' c' Hin. apply H. now right.
  - destruct (H k c (or_introl eq_refl)) as [Hp | [b Hb]]; [congruence|].
    rewrite Hb. cbn [bind].
    destruct (cap <=? _)%nat; [eauto|].
    apply IH. intros k' c' Hin. apply H. now right.
Qed.

End FlatScan.

Lemma scan_flat_ext (clock : nat -> datetime)
    (check1 check2 : nat -> datetime -> result bool) (cap : nat)
    (cs : list (nat * datetime)) :
  (forall k c, In (k, c) cs -> check1 k c = check2 k c) ->
  forall s, scan_flat clock check1 cap cs s = scan_flat clock check2 cap cs s.
Proof.
  induction cs as [|[k c] cs IH]; intros H s; cbn [scan_flat]; [reflexivity|].
  rewrite (H k c) by now left.
  rewrite !IH by (intros; apply H; now right).
  destruct (Datetime.lt c (clock k)); [reflexivity|].
  destruct (check2 k c) as [b|e]; cbn [bind]; [|reflexivity].
  destruct (cap <=? _)%nat; [reflexivity|].
  apply IH. intros; apply H; now right.
Qed.

Section Loops.

Variable clock : nat -> datetime.
Variable check : nat -> datetime -> result bool.
Variable target_date : datetime.

(** The nested loops of the remote branch are the flat scan with cap 10. *)
Lemma live_scan_minutes_flat (minutes : list Z) :
  forall (k : nat) (hour : Z) (s : list datetime),
    LiveSuggest.scan_minutes clock check target_date k hour minutes s
    = scan_flat clock check 10
        (minute_candidates target_date k hour minutes) s.
Proof.
  induction minutes as [|minute rest IH]; intros k h s;
    cbn [LiveSuggest.scan_minutes minute_candidates scan_flat];
    [reflexivity|].
  destruct (Datetime.lt _ (clock k)); [apply IH|].
  destruct (check k _) as [b|e]; cbn [bind]; [|reflexivity].
  destruct (10 <=? _)%nat; [reflexivity | apply IH].
Qed.

Lemma live_scan_hours_flat (hours : list Z) :
  forall (k : nat) (s : list datetime),
    (List.length s < 10)%nat ->
    LiveSuggest.scan_hours clock check target_date k hours s
    = scan_flat clock check 10 (hour_candidates target_date k hours) s.
Proof.
  induction hours as [|hour rest IH]; intros k s Hs;
    cbn [LiveSuggest.scan_hours hour_candidates]; [reflexivity|].
  rewrite live_scan_minutes_flat, scan_flat_app by exact Hs.
  destruct (scan_flat clock check 10 _ s) as [r|e]; cbn [bind];
    [|reflexivity].
  destruct (10 <=? List.length r)%nat eqn:El; [reflexivity|].
  apply IH. now apply Nat.leb_gt.
Qed.

(** The nested loops of the in-memory calendar are the flat scan with
    cap 5. *)
Lemma mock_scan_minutes_flat (minutes : list Z) :
  forall (k : nat) (hour : Z) (s : list datetime),
    (List.length s < 5)%nat ->
    MockSuggest.scan_minutes clock check target_date k hour minutes s
    = (r <- scan_flat clock check 5
              (minute_candidates target_date k hour minutes) s ;;
       Ok (if (5 <=? List.length r)%nat
           then MockSuggest.Returned r else MockSuggest.Next r))%result.
Proof.
  induction minutes as [|minute rest IH]; intros k h s Hs;
    cbn [MockSuggest.scan_minutes minute_candidates scan_flat bind].
  - replace (5 <=? List.length s)%nat with false
      by (symmetry; apply Nat.leb_gt; exact Hs).
    reflexivity.
  - destruct (Datetime.lt _ (clock k)); [now apply IH|].
    destruct (check k _) as [b|e]; cbn [bind]; [|reflexivity].
    destruct (5 <=? List.length (if b then _ else _))%nat eqn:El.
    + cbn [bind]. now rewrite El.
    + apply IH. now apply Nat.leb_gt.
Qed.

Lemma mock_scan_hours_flat (hours : list Z) :
  forall (k : nat) (s : list datetime),
    (List.length s < 5)%nat ->
    MockSuggest.scan_hours clock check target_date k hours s
    = scan_flat clock check 5 (hour_candidates target_date k hours) s.
Proof.
  induction hours as [|hour rest IH]; intros k s Hs;
    cbn [MockSuggest.scan_hours hour_candidates]; [reflexivity|].
  rewrite mock_scan_minutes_flat, scan_flat_app by exact Hs.
  destruct (scan_flat clock check 5 _ s) as [r|e]; cbn [bind];
    [|reflexivity].
  destruct (5 <=? List.length r)%nat eqn:El; [reflexivity|].
  apply IH. now apply Nat.leb_gt.
Qed.

End Loops.

(** Both branches of [suggest_times] are the flat scan of the grid, with
    the cap of the calendar at hand. *)
Lemma suggest_times_flat (env : environment) (self : GoogleCalendarService.t)
    (target_date : datetime) (d : Z) (bho : bool) :
  GoogleCalendarService.suggest_times env self target_date d bho
  = scan_flat (now env)
      (fun k c => GoogleCalendarService.check_availability env k self c d)
      (CalendarQueries.cap self)
      (hour_candidates target_date 0
         (range (fst (hour_bounds bho)) (snd (hour_bounds bho)))) [].
Proof.
  unfold GoogleCalendarService.suggest_times, mock_suggest_times.
  destruct (hour_bounds bho) as [a b]. cbn [fst snd].
  destruct self as [m|]; cbn [CalendarQueries.cap].
  - rewrite mock_scan_hours_flat by (cbn; lia). reflexivity.
  - rewrite live_scan_hours_flat by (cbn; lia). reflexivity.
Qed.

(** What a returned list of suggestions is. *)
Lemma suggest_times_ok (env : environment) (self : GoogleCalendarService.t)
    (target_date : datetime) (d : Z) (bho : bool) (l : list datetime) :
  GoogleCalendarService.suggest_times env self target_date d bho = Ok l ->
  l = firstn (CalendarQueries.cap self)
        (accepted (now env)
           (answer_of
              (fun k c => GoogleCalendarService.check_availability env k self c d))
           (hour_candidates target_date 0
              (range (fst (hour_bounds bho)) (snd (hour_bounds bho))))).
Proof.
  rewrite suggest_times_flat. intro H.
  apply scan_flat_ok in H; [exact H|].
  destruct self; cbn; lia.
Qed.

Lemma checks_return_live (env : environment) (target_date : datetime) (d : Z)
    (bho : bool) :
  checks_return env GoogleCalendarService.LiveService target_date d bho.
Proof. intros h m _ _. eexists. reflexivity. Qed.

Lemma suggest_times_returns (env : environment)
    (self : GoogleCalendarService.t) (target_date : datetime) (d : Z)
    (bho : bool) :
  checks_return env self target_date d bho ->
  exists l,
    GoogleCalendarService.suggest_times env self target_date d bho = Ok l.
Proof.
  intro H. rewrite suggest_times_flat. apply scan_flat_returns.
  intros k c Hin. right.
  apply range_candidates_In in Hin.
  destruct Hin as (h & m & Hh & Hm & -> & ->). now apply H.
Qed.




(** With the same answers on the grid, the in-memory scan returns the
    first five of what the remote scan returns. *)
Lemma scans_agree_up_to_cap (env : environment) (m : MockCalendarService.t)
    (target_date : datetime) (d : Z) (bho : bool) :
  same_answers env m target_date d bho ->
  exists l,
    GoogleCalendarService.suggest_times env
      GoogleCalendarService.LiveService target_date d bho = Ok l /\
    mock_suggest_times env m target_date d bho = Ok (firstn 5 l).
Proof.
  intro Hsame.
  set (cs := hour_candidates target_date 0
               (range (fst (hour_bounds bho)) (snd (hour_bounds bho)))).
  destruct (suggest_times_returns env GoogleCalendarService.LiveService
              target_date d bho (checks_return_live env target_date d bho))
    as [l Hl].
  exists l. split; [exact Hl|].
  apply suggest_times_ok in Hl. cbn [CalendarQueries.cap] in Hl. fold cs in Hl.
  assert (Hmock : mock_suggest_times env m target_date d bho
                  = scan_flat (now env)
                      (fun k c =>
                         GoogleCalendarService.check_availability env k
                           GoogleCalendarService.LiveService c d)
                      5 cs []).
  { pose proof (suggest_times_flat env
                  (GoogleCalendarService.MockService m) target_date d bho)
      as H.
    cbn [GoogleCalendarService.suggest_times CalendarQueries.cap] in H.
    rewrite H. fold cs. apply scan_flat_ext.
    intros k c Hin. apply range_candidates_In in Hin.
    destruct Hin as (h & mi & Hh & Hm & -> & ->).
    cbn [GoogleCalendarService.check_availability].
    symmetry. now apply Hsame. }
  rewrite Hmock.
  destruct (scan_flat_returns (now env)
              (fun k c =>
                 GoogleCalendarService.check_availability env k
                   GoogleCalendarService.LiveService c d) 5 cs [])
    as [l5 Hl5].
  { intros k c _. right. eexists. reflexivity. }
  rewrite Hl5. f_equal. apply scan_flat_ok in Hl5; [|cbn; lia].
  rewrite Hl5, Hl, firstn_firstn. reflexivity.
Qed.

(** C9 (amended). On the same date, duration, flag and availability answers
    the two [suggest_times] scan the same candidates, the 30-minute grid of
    the hour range, in the same order: the remote branch returns the first
    10 of the candidates that are not in the past and are reported free,
    the in-memory calendar the first 5 of these. *)
Theorem mock_suggest_times_prefix :
  forall (env : environment) (m : MockCalendarService.t)
         (target_date : datetime) (duration_minutes : Z)
         (business_hours_only : bool),
    same_answers env m target_date duration_minutes business_hours_only ->
    exists l,
      GoogleCalendarService.suggest_times env
        GoogleCalendarService.LiveService target_date duration_minutes
        business_hours_only = Ok l /\
      mock_suggest_times env m target_date duration_minutes
        business_hours_only = Ok (firstn 5 l) /\
      l = firstn 10
            (accepted (now env)
               (fun k c =>
                  GoogleCalendarService.live_available env k c
                    duration_minutes)
               (hour_candidates target_date 0
                  (range (fst (hour_bounds business_hours_only))
                         (snd (hour_bounds business_hours_only))))) /\
      (List.length l <= 10)%nat.
Proof.
  intros env m target d bho Hsame.
  destruct (scans_agree_up_to_cap env m target d bho Hsame)
    as (l & Hl & Hm).
  exists l. split; [exact Hl|]. split; [exact Hm|].
  apply suggest_times_ok in Hl. cbn [CalendarQueries.cap] in Hl.
  split; [exact Hl|].
  rewrite Hl. apply firstn_le_length.
Qed.

Lemma examples_same_answers :
  same_answers Examples.env MockCalendarService.init Examples.day 60 true.
Proof.
  intros h mi Hh Hm. cbn [hour_bounds fst snd] in Hh.
  assert (Hcases : h = 9 \/ h = 10 \/ h = 11 \/ h = 12 \/ h = 13 \/ h = 14
                   \/ h = 15 \/ h = 16) by lia.
  destruct Hm as [-> | ->];
    repeat (destruct Hcases as [-> | Hcases]; [reflexivity|]);
    subst; reflexivity.
Qed.

Lemma mock_suggest_times_prefix_witness :
  exists l,
    GoogleCalendarService.suggest_times Examples.env
      GoogleCalendarService.LiveService Examples.day 60 true = Ok l /\
    mock_suggest_times Examples.env MockCalendarService.init Examples.day 60
      true = Ok (firstn 5 l) /\
    l = firstn 10
          (accepted (now Examples.env)
             (fun k c =>
                GoogleCalendarService.live_available Examples.env k c 60)
             (hour_candidates Examples.day 0 (range 9 17))) /\
    (List.length l <= 10)%nat.
Proof.
  apply (mock_suggest_times_prefix Examples.env MockCalendarService.init
           Examples.day 60 true).
  intros h mi Hh Hm. cbn [hour_bounds fst snd] in Hh.
  assert (Hcases : h = 9 \/ h = 10 \/ h = 11 \/ h = 12 \/ h = 13 \/ h = 14
                   \/ h = 15 \/ h = 16) by lia.
  destruct Hm as [-> | ->];
    repeat (destruct Hcases as [-> | Hcases]; [reflexivity|]);
    subst; reflexivity.
Defined.

(** C9 as stated fails: with the clock in the past and the same calendar
    content (only 14:00 busy) on 2025-03-10, the remote branch returns ten
    start times and the in-memory calendar five. *)
Lemma suggest_times_disagree : ~ suggest_times_agree.
Proof.
  intro H.
  specialize (H Examples.env MockCalendarService.init Examples.day 60 true
                examples_same_answers).
  vm_compute in H. discriminate H.
Qed.

(* ================================================================== *)
(** ** Dictionaries *)

Lemma dict_get_set_same (d : dict) (k : string) (v : json) :
  dict_get (dict_set d k v) k = Some v.
Proof.
  induction d as [|[k' v'] d IH]; cbn [dict_set dict_get].
  - now rewrite String.eqb_refl.
  - destruct (String.eqb k' k) eqn:E; cbn [dict_get].
    + now rewrite String.eqb_refl.
    + now rewrite E.
Qed.

Lemma dict_get_set_other (d : dict) (k k' : string) (v : json) :
  k <> k' -> dict_get (dict_set d k v) k' = dict_get d k'.
Proof.
  intro Hne. induction d as [|[k0 v0] d IH]; cbn [dict_set dict_get].
  - destruct (String.eqb_spec k k'); [contradiction | reflexivity].
  - destruct (String.eqb_spec k0 k) as [->|Hk]; cbn [dict_get].
    + destruct (String.eqb_spec k k'); [contradiction | reflexivity].
    + now rewrite IH.
Qed.

(* ================================================================== *)
(** ** The handlers *)

Module TurnFacts.

Import GoogleCalendarService AppointmentAgent Turn.

Lemma no_event_created_refl (w : world) : no_event_created w w.
Proof. split; auto. Qed.

Lemma no_event_created_trans (w1 w2 w3 : world) :
  no_event_created w1 w2 -> no_event_created w2 w3 -> no_event_created w1 w3.
Proof. intros [H1 H2] [H3 H4]. split; [congruence | auto]. Qed.

Lemma no_event_created_check (w : world) (s : datetime) (d : json) :
  no_event_created w (log (CheckAvailabilityCall s d) w).
Proof.
  split; [reflexivity|]. cbn [log calls]. intros t s' d' x H.
  apply in_app_or in H. destruct H as [H|[H|[]]]; [assumption | discriminate].
Qed.

Lemma no_event_created_suggest (w : world) (s : datetime) (d : json) :
  no_event_created w (log (SuggestTimesCall s d) w).
Proof.
  split; [reflexivity|]. cbn [log calls]. intros t s' d' x H.
  apply in_app_or in H. destruct H as [H|[H|[]]]; [assumption | discriminate].
Qed.

(** The keyword [duration] of the agent's call names no parameter of
    [create_event]: the call raises before the method is entered. *)
Lemma create_event_call_rejected (env : environment) (title : json)
    (start_time : datetime) (duration description : json) (w : world) :
  call_create_event env ["title"; "start_time"; "duration"; "description"]
    title start_time duration description w
  = (Raise (Exn "TypeError"
              "GoogleCalendarService.create_event() got an unexpected keyword argument 'duration'"),
     w).
Proof. reflexivity. Qed.

Section Handlers.

Variable lib : library.
Variable env : environment.

(** The computation stopped with an exception in a world reached by [L]. *)
Ltac stopped H L :=
  inversion H; subst; split; [apply L | exact I].

Lemma check_availability_try_world date_str time_str duration ai w r w' :
  _check_availability_try lib env date_str time_str duration ai w = (r, w') ->
  no_event_created w w' /\
  match r with Ok res => reply_shape ai res | Raise _ => True end.
Proof.
  unfold _check_availability_try, bindM, lift, ret, call_check_availability.
  intro H.
  destruct (if truthy time_str then _ else _) as [start|e0];
    [|stopped H no_event_created_refl].
  destruct (check_availability_answer env 0 (calendar_service w) start duration)
    as [b|e0];
    [|stopped H no_event_created_check].
  destruct (unpack (context_of ai)) as [ctx|e0];
    inversion H; subst; (split; [apply no_event_created_check|]);
    [|exact I].
  eexists _, _. split; [reflexivity|]. right. eexists. reflexivity.
Qed.

Lemma check_availability_world parameters ai w r w' :
  _check_availability lib env parameters ai w = (r, w') ->
  no_event_created w w' /\
  match r with Ok res => reply_shape ai res | Raise _ => True end.
Proof.
  unfold _check_availability, bindM, lift, ret, try_except. intro H.
  destruct (get parameters "date" JNull) as [date_str|e0];
    [|stopped H no_event_created_refl].
  destruct (get parameters "time" JNull) as [time_str|e0];
    [|stopped H no_event_created_refl].
  destruct (get parameters "duration" (JNum 60)) as [duration|e0];
    [|stopped H no_event_created_refl].
  destruct (negb (truthy date_str)).
  - inversion H; subst. split; [apply no_event_created_refl|].
    eexists _, _. split; [reflexivity|]. now left.
  - destruct (_check_availability_try lib env date_str time_str duration ai w)
      as [[res|e0] w1] eqn:E;
      apply check_availability_try_world in E; destruct E as [E1 E2];
      inversion H; subst; (split; [exact E1|]); [exact E2|].
    eexists _, _. split; [reflexivity|]. now left.
Qed.

Lemma book_appointment_try_world parameters ai w r w' :
  _book_appointment_try lib env parameters ai w = (r, w') ->
  no_event_created w w' /\
  match r with Ok res => reply_shape ai res | Raise _ => True end.
Proof.
  unfold _book_appointment_try, bindM, lift, ret, call_check_availability.
  intro H.
  destruct (subscript parameters "date") as [date|e0];
    [|stopped H no_event_created_refl].
  destruct (subscript parameters "time") as [time|e0];
    [|stopped H no_event_created_refl].
  destruct (strptime lib _ _) as [start|e0];
    [|stopped H no_event_created_refl].
  destruct (get parameters "duration" (JNum 60)) as [duration|e0];
    [|stopped H no_event_created_refl].
  destruct (check_availability_answer env 0 (calendar_service w) start duration)
    as [b|e0];
    [|stopped H no_event_created_check].
  destruct b; cbn [negb] in H.
  - destruct (subscript parameters "title") as [title|e0];
      [|stopped H no_event_created_check].
    destruct (get parameters "description" (JStr "")) as [description|e0];
      [|stopped H no_event_created_check].
    rewrite create_event_call_rejected in H.
    inversion H; subst. split; [apply no_event_created_check | exact I].
  - inversion H; subst. split; [apply no_event_created_check|].
    eexists _, _. split; [reflexivity|]. now left.
Qed.

Lemma book_appointment_world parameters ai w r w' :
  _book_appointment lib env parameters ai w = (r, w') ->
  no_event_created w w' /\
  match r with Ok res => reply_shape ai res | Raise _ => True end.
Proof.
  unfold _book_appointment, bindM, lift, ret, try_except. intro H.
  destruct (missing_among parameters _) as [[|f fs]|e0];
    [| |stopped H no_event_created_refl].
  - destruct (_book_appointment_try lib env parameters ai w)
      as [[res|e0] w1] eqn:E;
      apply book_appointment_try_world in E; destruct E as [E1 E2];
      inversion H; subst; (split; [exact E1|]); [exact E2|].
    eexists _, _. split; [reflexivity|]. now left.
  - destruct (unpack (context_of ai)) as [ctx|e0];
      inversion H; subst; (split; [apply no_event_created_refl|]); [|exact I].
    eexists _, _. split; [reflexivity|]. right. eexists. reflexivity.
Qed.

Lemma suggest_times_try_world date_str duration ai w r w' :
  _suggest_times_try lib env date_str duration ai w = (r, w') ->
  no_event_created w w' /\
  match r with Ok res => reply_shape ai res | Raise _ => True end.
Proof.
  unfold _suggest_times_try, bindM, lift, ret. intro H.
  destruct (strptime_value lib date_str _) as [target|e0];
    [|stopped H no_event_created_refl].
  destruct (call_suggest_times env target duration w) as [[l|e0] w1] eqn:E;
    assert (Hw : w1 = log (SuggestTimesCall target duration) w)
      by (unfold call_suggest_times in E; cbv zeta in E;
          destruct (hour_bounds true); inversion E; reflexivity);
    subst w1;
    [|stopped H no_event_created_suggest].
  destruct (unpack (context_of ai)) as [ctx|e0];
    inversion H; subst; (split; [apply no_event_created_suggest|]); [|exact I].
  eexists _, _. split; [reflexivity|]. right. eexists. reflexivity.
Qed.

Lemma suggest_times_world parameters ai w r w' :
  _suggest_times lib env parameters ai w = (r, w') ->
  no_event_created w w' /\
  match r with Ok res => reply_shape ai res | Raise _ => True end.
Proof.
  unfold _suggest_times, bindM, lift, ret, try_except. intro H.
  destruct (get parameters "date" JNull) as [date_str|e0];
    [|stopped H no_event_created_refl].
  destruct (get parameters "duration" (JNum 60)) as [duration|e0];
    [|stopped H no_event_created_refl].
  destruct (negb (truthy date_str)).
  - inversion H; subst. split; [apply no_event_created_refl|].
    eexists _, _. split; [reflexivity|]. now left.
  - destruct (_suggest_times_try lib env date_str duration ai w)
      as [[res|e0] w1] eqn:E;
      apply suggest_times_try_world in E; destruct E as [E1 E2];
      inversion H; subst; (split; [exact E1|]); [exact E2|].
    eexists _, _. split; [reflexivity|]. now left.
Qed.

(** With an integer duration the agent's calls are the calls of the typed
    methods. *)
Lemma check_availability_answer_typed k self start_time (d : Z) :
  check_availability_answer env k self start_time (JNum d)
  = check_availability env k self start_time d.
Proof.
  unfold check_availability_answer. cbn [timedelta_minutes].
  destruct (timedelta d) as [minutes|e0] eqn:E;
    [apply timedelta_ok in E; now subst|].
  destruct self; unfold check_availability, live_available,
    MockCalendarService.check_availability, Datetime.add_minutes;
    rewrite E; reflexivity.
Qed.

Lemma call_suggest_times_typed target_date (d : Z) w :
  fst (call_suggest_times env target_date (JNum d) w)
  = suggest_times env (calendar_service w) target_date d true.
Proof.
  rewrite suggest_times_flat.
  unfold call_suggest_times. cbn [hour_bounds fst snd].
  destruct (calendar_service w) as [m|]; cbn [CalendarQueries.cap].
  - rewrite mock_scan_hours_flat by (cbn; lia).
    apply scan_flat_ext. intros k c _.
    apply check_availability_answer_typed.
  - rewrite live_scan_hours_flat by (cbn; lia).
    apply scan_flat_ext. intros k c _.
    apply check_availability_answer_typed.
Qed.

(** [_execute_action] always returns: a handler's reply, the reply of its
    own [except] clause, or the response itself for an unknown action. *)
Lemma execute_action_world ai w :
  exists res w',
    _execute_action lib env ai w = (Ok res, w') /\
    no_event_created w w' /\
    (reply_shape ai res \/ res = ai).
Proof.
  unfold _execute_action, try_except.
  set (body := if eq_str (action_of ai) "check_availability" then _ else _).
  assert (Hbody : forall r w', body w = (r, w') ->
            no_event_created w w' /\
            match r with
            | Ok res => reply_shape ai res \/ res = ai
            | Raise _ => True
            end).
  { subst body. intros r w' H.
    destruct (eq_str (action_of ai) "check_availability");
      [apply check_availability_world in H; destruct H as [H1 H2];
       split; [exact H1 | destruct r; auto]|].
    destruct (eq_str (action_of ai) "book_appointment");
      [apply book_appointment_world in H; destruct H as [H1 H2];
       split; [exact H1 | destruct r; auto]|].
    destruct (eq_str (action_of ai) "suggest_times");
      [apply suggest_times_world in H; destruct H as [H1 H2];
       split; [exact H1 | destruct r; auto]|].
    unfold ret in H. inversion H; subst.
    split; [apply no_event_created_refl | now right]. }
  pose proof (Hbody _ _ (surjective_pairing (body w))) as [E1 E2].
  clear Hbody. destruct (body w) as [[res|e0] w1]; cbn [fst snd] in E1, E2.
  - exists res, w1. auto.
  - eexists _, w1. split; [reflexivity|]. split; [exact E1|].
    left. eexists _, _. split; [reflexivity|]. now left.
Qed.

End Handlers.

End TurnFacts.

(* ================================================================== *)
(** ** Booking *)

Section Booking.

Import GoogleCalendarService AppointmentAgent Turn TurnFacts.

Variable lib : library.
Variable env : environment.

Lemma missing_among_dict (p : dict) (fields : list string) :
  missing_among (JObj p) fields = Ok (missing_fields p fields).
Proof.
  induction fields as [|f fs IH]; cbn [missing_among missing_fields filter];
    [reflexivity|].
  unfold get. cbn [bind]. rewrite IH. cbn [bind].
  fold (missing_fields p fs).
  destruct (truthy _); reflexivity.
Qed.

Lemma missing_fields_none (p : dict) (date time title : json) :
  dict_get p "date" = Some date -> truthy date = true ->
  dict_get p "time" = Some time -> truthy time = true ->
  dict_get p "title" = Some title -> truthy title = true ->
  missing_fields p ["date"; "time"; "title"] = [].
Proof.
  intros H1 T1 H2 T2 H3 T3. unfold missing_fields. cbn [filter].
  now rewrite H1, H2, H3, T1, T2, T3.
Qed.

(** C3. When every required field is present, the date and time parse and
    [check_availability] reports the slot busy, [_book_appointment] answers
    with the conflict message that offers alternative times and the
    extractor's context; the only calendar method entered is
    [check_availability], so [create_event] is not called and the calendar
    (its stored events) is unchanged. *)
Theorem book_appointment_conflict :
  forall (p ai_response : dict) (w : world) (date time title : json)
         (start_time : datetime) (duration : json),
    dict_get p "date" = Some date -> truthy date = true ->
    dict_get p "time" = Some time -> truthy time = true ->
    dict_get p "title" = Some title -> truthy title = true ->
    strptime lib (fstring [str lib date; " "; str lib time]) "%Y-%m-%d %H:%M"
    = Ok start_time ->
    get (JObj p) "duration" (JNum 60) = Ok duration ->
    check_availability_answer env 0 (calendar_service w) start_time duration
    = Ok false ->
    exists w',
      _book_appointment lib env (JObj p) ai_response w
      = (Ok [("message",
              JStr (fstring ["There's a conflict at "; str lib time; " on ";
                             str lib date;
                             ". Would you like me to suggest alternative times?"]));
             ("context", context_of ai_response)],
         w') /\
      calls w' = calls w ++ [CheckAvailabilityCall start_time duration] /\
      calendar_service w' = calendar_service w /\
      stored_events (calendar_service w') = stored_events (calendar_service w).
Proof.
  intros p ai w date time title start duration H1 T1 H2 T2 H3 T3 Hparse Hdur
    Hbusy.
  exists (log (CheckAvailabilityCall start duration) w).
  split; [|repeat split].
  unfold _book_appointment, bindM, lift, try_except.
  rewrite missing_among_dict,
    (missing_fields_none p date time title H1 T1 H2 T2 H3 T3).
  unfold _book_appointment_try, bindM, lift, ret, call_check_availability,
    subscript, getitem.
  rewrite H1, H2, Hparse, Hdur, Hbusy. reflexivity.
Qed.


End Booking.

Lemma book_appointment_conflict_witness :
  exists w',
    AppointmentAgent._book_appointment Sample.lib Examples.env
      (JObj (Requests.sync_at "14:00")) [] Examples.fresh
    = (Ok [("message",
            JStr "There's a conflict at 14:00 on 2025-03-10. Would you like me to suggest alternative times?");
           ("context", JObj [])],
       w') /\
    AppointmentAgent.calls w'
    = [AppointmentAgent.CheckAvailabilityCall (mkdt 739320 14 0 0 0) (JNum 60)] /\
    AppointmentAgent.calendar_service w'
    = GoogleCalendarService.MockService MockCalendarService.init /\
    GoogleCalendarService.stored_events (AppointmentAgent.calendar_service w')
    = [].
Proof.
  apply (book_appointment_conflict Sample.lib Examples.env
           (Requests.sync_at "14:00") [] Examples.fresh
           (JStr "2025-03-10") (JStr "14:00") (JStr "Sync")
           (mkdt 739320 14 0 0 0) (JNum 60));
    reflexivity.
Defined.



(** C2 (the code departs from it). Booking "Sync" on 2025-03-10 at 10:00 on
    the empty in-memory calendar: [check_availability] reports the slot
    free, but the call of [create_event] passes the keyword [duration],
    which the method does not have; the [TypeError] is caught by the
    handler, so the reply is an error message without event id, no event is
    stored and no [last_booking] is recorded; the same request issued again
    gets the same error, not a conflict. *)
Theorem book_free_slot_creates_no_event :
  AppointmentAgent.check_availability_answer Examples.env 0
    (AppointmentAgent.calendar_service Examples.fresh)
    (mkdt 739320 10 0 0 0) (JNum 60) = Ok true /\
  AppointmentAgent._book_appointment Sample.lib Examples.env
    (JObj (Requests.sync_at "10:00")) [] Examples.fresh
  = (Ok [("message",
          JStr "I encountered an error while booking: GoogleCalendarService.create_event() got an unexpected keyword argument 'duration'");
         ("context", JObj [])],
     AppointmentAgent.log
       (AppointmentAgent.CheckAvailabilityCall (mkdt 739320 10 0 0 0) (JNum 60))
       Examples.fresh) /\
  GoogleCalendarService.stored_events
    (AppointmentAgent.calendar_service
       (snd (AppointmentAgent._book_appointment Sample.lib Examples.env
               (JObj (Requests.sync_at "10:00")) [] Examples.fresh))) = [] /\
  fst (AppointmentAgent._book_appointment Sample.lib Examples.env
         (JObj (Requests.sync_at "10:00")) []
         (snd (AppointmentAgent._book_appointment Sample.lib Examples.env
                 (JObj (Requests.sync_at "10:00")) [] Examples.fresh)))
  = fst (AppointmentAgent._book_appointment Sample.lib Examples.env
           (JObj (Requests.sync_at "10:00")) [] Examples.fresh).
Proof. repeat split; vm_compute; reflexivity. Qed.

(* ================================================================== *)
(** ** A whole turn *)

Section WholeTurn.

Import GoogleCalendarService AppointmentAgent Turn TurnFacts.

Variable lib : library.
Variable env : environment.

Ltac stopped H L :=
  inversion H; subst; split; [apply L | exact I].

Lemma action_of_str (ai : dict) (a : string) :
  action_of ai = JStr a -> dict_get ai "action" = Some (JStr a).
Proof.
  unfold action_of. destruct (dict_get ai "action"); [congruence|discriminate].
Qed.

Lemma reply_shape_message (ai res : dict) :
  reply_shape ai res -> exists m, dict_get res "message" = Some (JStr m).
Proof. intros (m & c & -> & _). exists m. reflexivity. Qed.

Lemma reply_shape_context (ai res : dict) :
  reply_shape ai res ->
  exists c, dict_get res "context" = Some c /\
            (c = context_of ai \/ exists ctx, c = JObj ctx).
Proof. intros (m & c & -> & H). exists c. split; [reflexivity|exact H]. Qed.

(** A turn that folds the result of an action into a well-formed response
    of the extractor yields a well-formed response. *)
Lemma fold_result_well_formed (ai res d : dict) :
  reply_shape ai res \/ res = ai ->
  fold_result ai res = Ok d ->
  well_formed_response ai -> well_formed_response d.
Proof.
  intros Hres Hfold (m0 & c0 & Hm0 & Hc0).
  unfold fold_result, getitem in Hfold. rewrite Hm0 in Hfold.
  cbn [bind] in Hfold. inversion Hfold; subst d; clear Hfold.
  unfold well_formed_response.
  rewrite dict_get_set_same.
  rewrite dict_get_set_other by discriminate.
  rewrite dict_get_set_same.
  assert (Hctx : context_of ai = JObj c0) by (unfold context_of; now rewrite Hc0).
  destruct Hres as [Hshape | ->].
  - destruct (reply_shape_message _ _ Hshape) as (m & ->).
    destruct (reply_shape_context _ _ Hshape) as (c & -> & [-> | (ctx & ->)]).
    + exists m, c0. now rewrite Hctx.
    + exists m, ctx. auto.
  - rewrite Hm0, Hc0. exists m0, c0. auto.
Qed.

(** The body of a turn creates no event; when it returns, the extractor's
    output was an object, and the response is well formed if that object
    was. *)
Lemma process_message_body_cases user_message context w r w' :
  process_message_body lib env user_message context w = (r, w') ->
  no_event_created w w' /\
  match r with
  | Raise _ => True
  | Ok d =>
      exists ai,
        _get_ai_response lib env user_message context = Ok (JObj ai) /\
        (well_formed_response ai -> well_formed_response d)
  end.
Proof.
  unfold process_message_body, bindM, lift, ret. intro H.
  destruct (_get_ai_response lib env user_message context) as [v|e0];
    [|stopped H no_event_created_refl].
  destruct v as [| | | | |ai]; cbn [get unpack] in H;
    try (stopped H no_event_created_refl).
  destruct (truthy _);
    [|inversion H; subst; split; [apply no_event_created_refl|];
      exists ai; auto].
  destruct (getitem ai "action") as [a|e0];
    [|stopped H no_event_created_refl].
  destruct (negb (eq_str a "general_chat"));
    [|inversion H; subst; split; [apply no_event_created_refl|];
      exists ai; auto].
  destruct (execute_action_world lib env ai w) as (res & w1 & Hex & Hw & Hres).
  rewrite Hex in H.
  destruct (truthy (JObj res));
    [|inversion H; subst; split; [exact Hw|]; exists ai; auto].
  inversion H; subst. split; [exact Hw|].
  destruct (fold_result ai res) as [d|e0] eqn:Ef; [|exact I].
  exists ai. split; [reflexivity|].
  now apply (fold_result_well_formed ai res d).
Qed.

(** No turn creates an event: the only call of [create_event] is the one
    that [create_event_call_rejected] describes. *)
Lemma process_message_creates_no_event user_message context w :
  no_event_created w (snd (process_message lib env user_message context w)).
Proof.
  unfold process_message, try_except.
  destruct (process_message_body lib env user_message
              (match context with Some c => c | None => [] end) w)
    as [[d|e] w1] eqn:E;
    apply process_message_body_cases in E; destruct E as [E _]; exact E.
Qed.

(** C5 (amended). For every user message, prior context, language model
    and calendar, [process_message] returns a dict and raises nothing.  The
    dict has a message string and a context mapping whenever the
    extractor's output, if it decoded to an object, had them; an object
    without them is passed on as it is when no action runs. *)
Theorem process_message_returns :
  forall (user_message : string) (context : option dict) (w : world),
  exists d w',
    process_message lib env user_message context w = (Ok d, w') /\
    ((forall ai,
        _get_ai_response lib env user_message (input_context context)
        = Ok (JObj ai) ->
        well_formed_response ai) ->
     well_formed_response d).
Proof.
  intros um context w. unfold process_message, try_except.
  fold (input_context context).
  destruct (process_message_body lib env um (input_context context) w)
    as [[d|e] w1] eqn:E.
  - exists d, w1. split; [reflexivity|].
    apply process_message_body_cases in E.
    destruct E as (_ & ai & Hai & Hwf). intro H. apply Hwf, H, Hai.
  - eexists _, w1. split; [reflexivity|]. intros _.
    eexists _, _. split; reflexivity.
Qed.

(** C10. When an exception escapes the body of the turn,
    [process_message] returns the response with action ["error"], which is
    none of the four documented actions, with a message that embeds the
    text of the exception, and with the context the caller passed in ([{}]
    for [None]). *)
Theorem escaped_exception_gives_error_response :
  forall (user_message : string) (context : option dict) (w w' : world)
         (e : exn),
    process_message_body lib env user_message (input_context context) w
    = (Raise e, w') ->
    process_message lib env user_message context w
    = (Ok [("message",
            JStr (fstring ["I encountered an error: "; exn_text e;
                           ". Please try again."]));
           ("action", JStr "error");
           ("context", JObj (input_context context))],
       w') /\
    ~ In "error" documented_actions.
Proof.
  intros um context w w' e H. split.
  - unfold process_message, try_except. fold (input_context context).
    rewrite H. reflexivity.
  - cbn. intros [H1|[H1|[H1|[H1|[]]]]]; discriminate.
Qed.

(** C8 (amended). When the text of the extractor is no JSON
    ([json.loads] raises [JSONDecodeError]), the turn answers with action
    [general_chat], the text itself as the message and the context the
    caller passed in, and enters no calendar method. *)
Theorem undecodable_output_degrades :
  forall (user_message : string) (context : option dict) (w : world)
         (raw : string) (e : exn),
    chat_completion env user_message (input_context context) = Ok raw ->
    json_loads lib raw = Raise e ->
    exn_type e = "JSONDecodeError" ->
    process_message lib env user_message context w
    = (Ok (general_chat_fallback raw (input_context context)), w).
Proof.
  intros um context w raw e Hc Hj He.
  unfold process_message, try_except, process_message_body, bindM, lift,
    _get_ai_response.
  fold (input_context context).
  rewrite Hc. cbn [bind]. rewrite Hj, He. reflexivity.
Qed.

(** C7 (amended). When the guarded block of the handler of
    [check_availability], [book_appointment] or [suggest_times] raises (a
    calendar call or [strptime] failed), the turn returns the handler's
    apology with the text of the exception, and as context the context of
    the extractor's response of this turn ([{}] if it has none) without any
    outcome key; no event is created. *)
Theorem guarded_failure_passes_extractor_context :
  forall (user_message : string) (context : option dict) (w w' : world)
         (ai : dict) (m0 : json) (e : exn) (prefix : string),
    _get_ai_response lib env user_message (input_context context)
    = Ok (JObj ai) ->
    dict_get ai "message" = Some m0 ->
    guarded_failure lib env ai w e w' prefix ->
    exists d,
      process_message lib env user_message context w = (Ok d, w') /\
      dict_get d "message" = Some (JStr (fstring [prefix; exn_text e])) /\
      dict_get d "context" = Some (context_of ai) /\
      no_event_created w w'.
Proof.
  intros um context w w' ai m0 e prefix Hai Hm0 Hfail.
  assert (Hturn : forall a res,
            action_of ai = JStr a ->
            String.eqb a "" = false ->
            String.eqb a "general_chat" = false ->
            _execute_action lib env ai w = (Ok res, w') ->
            res = [("message", JStr (fstring [prefix; exn_text e]));
                   ("context", context_of ai)] ->
            exists d,
              process_message lib env um context w = (Ok d, w') /\
              dict_get d "message" = Some (JStr (fstring [prefix; exn_text e])) /\
              dict_get d "context" = Some (context_of ai)).
  { intros a res Ha Hne Hgc Hex ->.
    unfold process_message, try_except, process_message_body, bindM, lift.
    fold (input_context context). rewrite Hai.
    apply action_of_str in Ha. unfold get, unpack, getitem.
    rewrite Ha. cbn [truthy eq_str]. rewrite Hne, Hgc. cbn [negb]. rewrite Hex. cbn [truthy].
    unfold fold_result, getitem. rewrite Hm0. cbn [bind dict_get String.eqb].
    eexists. split; [reflexivity|].
    rewrite dict_get_set_same.
    rewrite dict_get_set_other by discriminate.
    rewrite dict_get_set_same. auto. }
  assert (Hquiet : no_event_created w w').
  { destruct Hfail as
      [d t du e w' _ _ _ _ _ Htry | e w' _ _ Htry | d du e w' _ _ _ _ Htry].
    - now apply check_availability_try_world in Htry.
    - now apply book_appointment_try_world in Htry.
    - now apply suggest_times_try_world in Htry. }
  destruct Hfail as
    [d t du e w' Ha Hd Ht Hdu Htr Htry | e w' Ha Hmiss Htry
    | d du e w' Ha Hd Hdu Htr Htry].
  - destruct (Hturn "check_availability" _ Ha eq_refl eq_refl
                ltac:(unfold _execute_action, _check_availability, bindM, lift, ret,
                        try_except;
                      rewrite Ha, Hd, Ht, Hdu, Htr;
                      cbv [eq_str String.eqb Ascii.eqb Bool.eqb negb];
                      rewrite Htry; reflexivity) eq_refl) as (x & H1 & H2 & H3).
    exists x. auto.
  - destruct (Hturn "book_appointment" _ Ha eq_refl eq_refl
                ltac:(unfold _execute_action, _book_appointment, bindM, lift, ret,
                        try_except;
                      rewrite Ha, Hmiss;
                      cbv [eq_str String.eqb Ascii.eqb Bool.eqb negb];
                      rewrite Htry; reflexivity) eq_refl) as (x & H1 & H2 & H3).
    exists x. auto.
  - destruct (Hturn "suggest_times" _ Ha eq_refl eq_refl
                ltac:(unfold _execute_action, _suggest_times, bindM, lift, ret,
                        try_except;
                      rewrite Ha, Hd, Hdu, Htr;
                      cbv [eq_str String.eqb Ascii.eqb Bool.eqb negb];
                      rewrite Htry; reflexivity) eq_refl) as (x & H1 & H2 & H3).
    exists x. auto.
Qed.

End WholeTurn.

(* ================================================================== *)
(** ** Turns run on the examples *)

Lemma escaped_exception_gives_error_response_witness :
  AppointmentAgent.process_message Sample.lib Requests.env_unreachable
    "Book a meeting" None Examples.fresh
  = (Ok [("message",
          JStr "I encountered an error: Connection error.. Please try again.");
         ("action", JStr "error");
         ("context", JObj [])],
     Examples.fresh) /\
  ~ In "error" Turn.documented_actions.
Proof.
  apply (escaped_exception_gives_error_response Sample.lib
           Requests.env_unreachable "Book a meeting" None Examples.fresh
           Examples.fresh (Exn "APIConnectionError" "Connection error.")).
  reflexivity.
Defined.

Lemma undecodable_output_degrades_witness :
  AppointmentAgent.process_message Sample.lib Examples.env "Hi" (Some [])
    Examples.fresh
  = (Ok (Turn.general_chat_fallback "Hello there" []), Examples.fresh).
Proof.
  apply (undecodable_output_degrades Sample.lib Examples.env "Hi" (Some [])
           Examples.fresh "Hello there"
           (Exn "JSONDecodeError" "Expecting value"));
    reflexivity.
Defined.

(** C8 as stated fails: the text [[]] is JSON but no intent; it is decoded,
    the missing [get] method raises, and the turn ends with action
    ["error"], not [general_chat]. *)
Lemma decodable_output_does_not_degrade : ~ Turn.malformed_output_degrades.
Proof.
  intro H.
  specialize (H Sample.lib (Examples.env_answering (Ok "[]")) "Hi" []
                Examples.fresh "[]" eq_refl).
  assert (Hno : ~ Turn.parses_as_intent Sample.lib "[]").
  { intros (d & m & a & Hd & _). vm_compute in Hd. discriminate Hd. }
  specialize (H Hno). vm_compute in H. discriminate H.
Qed.

(** C5 as stated fails: when the language model answers [{}], the turn
    returns [{}], which has neither message nor context. *)
Lemma empty_object_passes_through : ~ Turn.always_well_formed.
Proof.
  intro H.
  destruct (H Sample.lib (Examples.env_answering (Ok "{}")) "Hi" (Some [])
              Examples.fresh) as (d & w' & Hrun & (m & c & Hm & _)).
  vm_compute in Hrun. inversion Hrun; subst d.
  discriminate Hm.
Qed.

Lemma check_tomorrow_fails :
  Turn.guarded_failure Sample.lib Requests.env_check_tomorrow
    Requests.check_tomorrow Examples.fresh
    (Exn "ValueError" "time data 'tomorrow' does not match format '%Y-%m-%d'")
    Examples.fresh "I had trouble checking your calendar: ".
Proof.
  apply (Turn.check_availability_fails Sample.lib Requests.env_check_tomorrow
           Requests.check_tomorrow Examples.fresh
           (JStr "tomorrow") JNull (JNum 60));
    reflexivity.
Qed.

Lemma guarded_failure_passes_extractor_context_witness :
  exists d,
    AppointmentAgent.process_message Sample.lib Requests.env_check_tomorrow
      "Am I free tomorrow?" (Some []) Examples.fresh = (Ok d, Examples.fresh) /\
    dict_get d "message"
    = Some (JStr (fstring ["I had trouble checking your calendar: ";
                           "time data 'tomorrow' does not match format '%Y-%m-%d'"])) /\
    dict_get d "context"
    = Some (AppointmentAgent.context_of Requests.check_tomorrow) /\
    Turn.no_event_created Examples.fresh Examples.fresh.
Proof.
  apply (guarded_failure_passes_extractor_context Sample.lib
           Requests.env_check_tomorrow "Am I free tomorrow?" (Some [])
           Examples.fresh Examples.fresh Requests.check_tomorrow
           (JStr "Let me check.")
           (Exn "ValueError"
              "time data 'tomorrow' does not match format '%Y-%m-%d'")
           "I had trouble checking your calendar: ").
  - reflexivity.
  - reflexivity.
  - apply (Turn.check_availability_fails Sample.lib
             Requests.env_check_tomorrow Requests.check_tomorrow
             Examples.fresh (JStr "tomorrow") JNull (JNum 60));
      reflexivity.
Defined.

(** C7 as stated fails: the caller passes the empty context, the extractor
    answers with a context of its own and a date that does not parse; the
    turn returns the extractor's context, not the caller's. *)
Lemma failure_returns_extractor_context : ~ Turn.failure_keeps_input_context.
Proof.
  intro H.
  destruct (H Sample.lib Requests.env_check_tomorrow "Am I free tomorrow?" []
              Examples.fresh Requests.check_tomorrow _ _ _ eq_refl
              check_tomorrow_fails) as (d & w'' & Hrun & Hctx).
  vm_compute in Hrun. inversion Hrun; subst d.
  vm_compute in Hctx. discriminate Hctx.
Qed.

(* ================================================================== *)
(** ** Creating and listing events in the in-memory calendar *)

Section StoredEvents.

Import CalendarQueries.

Lemma check_events_app (s e : datetime)
    (evs1 evs2 : list MockCalendarService.event) :
  MockCalendarService.check_events s e (evs1 ++ evs2)
  = (free <- MockCalendarService.check_events s e evs1 ;;
     if free then MockCalendarService.check_events s e evs2
     else Ok false)%result.
Proof.
  induction evs1 as [|ev evs1 IH]; cbn [app MockCalendarService.check_events bind];
    [reflexivity|].
  destruct (add_minutes _ _) as [ee|x]; cbn [bind]; [|reflexivity].
  destruct (Datetime.lt s _ && Datetime.gt e _); [reflexivity | exact IH].
Qed.

(** What one more stored event does to the answer [True]. *)
Lemma book_check_iff (self : MockCalendarService.t) (b : booking)
    (s2 : datetime) (d2 : Z) :
  MockCalendarService.check_availability (book self b) s2 d2 = Ok true <->
  MockCalendarService.check_availability self s2 d2 = Ok true /\
  ends_in_range (b_start_time b) (b_duration b) /\
  ~ overlap (to_micros s2) (to_micros s2 + span d2)
      (to_micros (b_start_time b))
      (to_micros (b_start_time b) + span (b_duration b)).
Proof.
  unfold MockCalendarService.check_availability, book,
    MockCalendarService.create_event.
  cbn [snd MockCalendarService.events].
  destruct (add_minutes s2 d2) as [e2|x] eqn:E2; cbn [bind];
    [|split; [discriminate | intros [H _]; discriminate]].
  apply add_minutes_ok in E2. destruct E2 as [E2 _].
  destruct (hour s2 =? 14)%Z;
    [split; [discriminate | intros [H _]; discriminate]|].
  rewrite check_events_app.
  destruct (MockCalendarService.check_events s2 e2
              (MockCalendarService.events self)) as [[|]|x]; cbn [bind];
    try (split; [discriminate | intros [H _]; discriminate]).
  cbn [MockCalendarService.check_events MockCalendarService.ev_start_time
       MockCalendarService.ev_duration].
  unfold ends_in_range.
  destruct (add_minutes (b_start_time b) (b_duration b)) as [eb|x] eqn:Eb;
    cbn [bind];
    [|split; [discriminate | intros (_ & [e He] & _); discriminate]].
  apply add_minutes_ok in Eb. destruct Eb as [Eb _].
  unfold Datetime.gt, Datetime.lt, overlap. rewrite Eb, E2.
  destruct (to_micros s2 <? to_micros (b_start_time b) + span (b_duration b))%Z
    eqn:E1;
    destruct (to_micros (b_start_time b) <? to_micros s2 + span d2)%Z eqn:E3;
    cbn [andb];
    try apply Z.ltb_lt in E1; try apply Z.ltb_ge in E1;
    try apply Z.ltb_lt in E3; try apply Z.ltb_ge in E3;
    (split; [intro H;
             first [discriminate H
                   | split; [reflexivity|]; split; [eauto|]; lia]
            | intros (_ & _ & H); try reflexivity;
              exfalso; apply H; split; assumption]).
Qed.

(** X1. After [create_event(title, s, d, description)] a slot is reported
    free exactly when it was reported free before, the end [s + d] of the
    new event is a datetime of the years 1..9999, and the slot does not
    overlap [[s, s + d)]; in particular the slot just booked (of positive
    length) is never reported free, whatever the calendar held. *)
Theorem create_event_blocks_overlapping_slots :
  forall (self : MockCalendarService.t) (b : booking) (s2 : datetime) (d2 : Z),
    (MockCalendarService.check_availability (book self b) s2 d2 = Ok true <->
       MockCalendarService.check_availability self s2 d2 = Ok true /\
       ends_in_range (b_start_time b) (b_duration b) /\
       ~ overlap (to_micros s2) (to_micros s2 + span d2)
           (to_micros (b_start_time b))
           (to_micros (b_start_time b) + span (b_duration b))) /\
    (0 < b_duration b ->
     forall d', 0 < d' ->
       MockCalendarService.check_availability (book self b) (b_start_time b) d'
       <> Ok true).
Proof.
  intros self b s2 d2. split; [apply book_check_iff|].
  intros Hd d' Hd' Hfree.
  apply book_check_iff in Hfree. destruct Hfree as (_ & _ & Hno).
  apply Hno. unfold overlap, span. lia.
Qed.

Lemma str_of_nat_inj (n m : nat) : str_of_nat n = str_of_nat m -> n = m.
Proof.
  unfold str_of_nat. intro H.
  apply (f_equal NilEmpty.uint_of_string) in H.
  rewrite !NilEmpty.usu in H. inversion H as [H'].
  now apply Unsigned.to_uint_inj.
Qed.

Lemma mock_event_id_inj (n m : nat) :
  mock_event_id n = mock_event_id m -> n = m.
Proof.
  unfold mock_event_id, fstring. cbn [String.concat].
  intro H. apply str_of_nat_inj.
  cbn in H. inversion H. reflexivity.
Qed.

Lemma booked_snoc (bs : list booking) (b : booking) :
  booked (bs ++ [b]) = book (booked bs) b.
Proof. unfold booked. now rewrite fold_left_app. Qed.

(** X2. [create_event] never refuses and never reuses an identifier: after
    any sequence of calls on a fresh in-memory calendar there is one stored
    event per call, in call order, with the start and duration given (also
    when slots coincide), the identifiers are [mock_event_1],
    [mock_event_2], ... and pairwise distinct, and the counter is one more
    than the number of events. *)
Theorem booked_events_invariant :
  forall (bs : list booking),
    map MockCalendarService.ev_start_time
      (MockCalendarService.events (booked bs)) = map b_start_time bs /\
    map MockCalendarService.ev_duration
      (MockCalendarService.events (booked bs)) = map b_duration bs /\
    map MockCalendarService.ev_id (MockCalendarService.events (booked bs))
    = map mock_event_id (seq 1 (List.length bs)) /\
    NoDup (map MockCalendarService.ev_id
             (MockCalendarService.events (booked bs))) /\
    MockCalendarService.next_event_id (booked bs)
    = S (List.length (MockCalendarService.events (booked bs))).
Proof.
  intro bs.
  assert (H : map MockCalendarService.ev_start_time
                (MockCalendarService.events (booked bs)) = map b_start_time bs /\
              map MockCalendarService.ev_duration
                (MockCalendarService.events (booked bs)) = map b_duration bs /\
              map MockCalendarService.ev_id
                (MockCalendarService.events (booked bs))
              = map mock_event_id (seq 1 (List.length bs)) /\
              MockCalendarService.next_event_id (booked bs)
              = S (List.length bs)).
  { induction bs as [|b bs IH] using rev_ind; [repeat split|].
    rewrite booked_snoc. destruct IH as (IH1 & IH2 & IH3 & IH4).
    unfold book, MockCalendarService.create_event.
    cbn [snd MockCalendarService.next_event_id MockCalendarService.events].
    rewrite !map_app, IH1, IH2, IH3, IH4, length_app.
    cbn [List.length map MockCalendarService.ev_start_time
         MockCalendarService.ev_duration MockCalendarService.ev_id].
    rewrite Nat.add_1_r, seq_S, map_app.
    repeat split. }
  destruct H as (H1 & H2 & H3 & H4).
  repeat split; auto.
  - rewrite H3. apply NoDup_map_NoDup_ForallPairs; [|apply seq_NoDup].
    intros n m _ _. apply mock_event_id_inj.
  - rewrite H4. f_equal.
    rewrite <- (length_map MockCalendarService.ev_id), H3, length_map,
      length_seq.
    reflexivity.
Qed.

Variable isoformat : datetime -> string.

Lemma filter_events_eq (a b : datetime)
    (evs : list MockCalendarService.event) (acc : list json) :
  filter_events isoformat a b evs acc
  = acc ++ map (event_entry isoformat) (filter (starts_within a b) evs).
Proof.
  revert acc. induction evs as [|ev evs IH]; intro acc;
    cbn [filter_events filter map].
  - now rewrite app_nil_r.
  - unfold starts_within at 1.
    destruct (le a _ && le _ b); rewrite IH; [|reflexivity].
    cbn [map]. now rewrite <- app_assoc.
Qed.

(** X3. [MockCalendarService.get_events(start_date, end_date)] returns, in
    the order of creation (not sorted by start time), one entry for each
    stored event whose start lies in the closed range, so an event that
    starts exactly at either end is listed; it returns nothing when
    [end_date] is before [start_date]. *)
Theorem mock_get_events_closed_range :
  forall (self : MockCalendarService.t) (a b : datetime),
    mock_get_events isoformat self a b
    = map (event_entry isoformat)
        (filter (starts_within a b) (MockCalendarService.events self)) /\
    (forall ev,
       In ev (MockCalendarService.events self) ->
       (to_micros (MockCalendarService.ev_start_time ev) = to_micros a \/
        to_micros (MockCalendarService.ev_start_time ev) = to_micros b) ->
       to_micros a <= to_micros b ->
       In (event_entry isoformat ev) (mock_get_events isoformat self a b)) /\
    (to_micros b < to_micros a -> mock_get_events isoformat self a b = []).
Proof.
  intros self a b.
  assert (H : mock_get_events isoformat self a b
              = map (event_entry isoformat)
                  (filter (starts_within a b) (MockCalendarService.events self))).
  { unfold mock_get_events. now rewrite filter_events_eq. }
  split; [exact H|]. split.
  - intros ev Hin Hedge Hab. rewrite H. apply in_map, filter_In.
    split; [exact Hin|].
    unfold starts_within, le. apply andb_true_iff.
    split; apply Z.leb_le; lia.
  - intro Hba. rewrite H. clear H.
    replace (filter (starts_within a b) (MockCalendarService.events self))
      with (@nil MockCalendarService.event); [reflexivity|].
    symmetry. induction (MockCalendarService.events self) as [|ev evs IH];
      cbn [filter]; [reflexivity|].
    replace (starts_within a b ev) with false; [exact IH|].
    symmetry. unfold starts_within, le. apply andb_false_iff.
    destruct (Z.leb_spec (to_micros a)
                (to_micros (MockCalendarService.ev_start_time ev)));
      [right; apply Z.leb_gt; lia | now left].
Qed.

(** X4. Listing after booking: [get_events] on the calendar after
    [create_event] returns what it returned before, followed by the entry of
    the new event when its start lies in the range (and only then); the
    entry carries the identifier [create_event] returned. *)
Theorem get_events_after_create_event :
  forall (self : MockCalendarService.t) (b : booking) (a e : datetime),
    let created :=
      MockCalendarService.create_event self (b_title b) (b_start_time b)
        (b_duration b) (b_description b) in
    mock_get_events isoformat (snd created) a e
    = mock_get_events isoformat self a e
      ++ (if le a (b_start_time b) && le (b_start_time b) e
          then [JObj [("id", JStr (fst created));
                      ("summary", JStr (b_title b));
                      ("start",
                       JObj [("dateTime", JStr (isoformat (b_start_time b)))]);
                      ("description", JStr (b_description b))]]
          else []).
Proof.
  intros self b a e. cbv zeta.
  unfold mock_get_events, MockCalendarService.create_event.
  cbn [snd fst MockCalendarService.events].
  rewrite !filter_events_eq. cbn [app].
  rewrite filter_app, map_app. f_equal.
  cbn [filter]. unfold starts_within at 1.
  cbn [MockCalendarService.ev_start_time].
  destruct (le a (b_start_time b) && le (b_start_time b) e); reflexivity.
Qed.

End StoredEvents.

(* ================================================================== *)
(** ** What [suggest_times] finds and what it leaves out *)

Section Suggestions.

Import GoogleCalendarService CalendarQueries.

Lemma accepted_complete (clock : nat -> datetime)
    (answers : nat -> datetime -> bool) (cs : list (nat * datetime))
    (k : nat) (c : datetime) :
  In (k, c) cs -> Datetime.lt c (clock k) = false -> answers k c = true ->
  In c (accepted clock answers cs).
Proof.
  intros Hin Hpast Hfree.
  induction cs as [|[k' c'] cs IH]; cbn [accepted]; [destruct Hin|].
  destruct Hin as [Heq|Hin].
  - inversion Heq; subst. rewrite Hpast, Hfree. now left.
  - destruct (negb _ && _); [right|]; auto.
Qed.

Lemma hour_candidates_complete (target_date : datetime) (a : Z) (n : nat) :
  forall (i0 k0 i : nat) (m : Z),
    (i0 <= i < i0 + n)%nat -> (m = 0 \/ m = 30) ->
    In ((k0 + 2 * (i - i0) + Z.to_nat (m / 30))%nat,
        replace_time target_date (a + Z.of_nat i) m)
       (hour_candidates target_date k0
          (map (fun i => a + Z.of_nat i) (seq i0 n))).
Proof.
  induction n as [|n IH]; intros i0 k0 i m Hi Hm; [lia|].
  cbn [seq map hour_candidates minute_candidates app].
  destruct (Nat.eq_dec i i0) as [->|Hne].
  - replace (i0 - i0)%nat with 0%nat by lia.
    destruct Hm as [-> | ->];
      [change (0 / 30) with 0 | change (30 / 30) with 1];
      cbn [Z.to_nat Pos.to_nat Pos.iter_op Nat.mul Nat.add];
      rewrite ?Nat.add_0_r; [left | right; left];
      f_equal; lia.
  - right. right.
    replace (k0 + 2 * (i - i0) + Z.to_nat (m / 30))%nat
      with (k0 + 2 + 2 * (i - S i0) + Z.to_nat (m / 30))%nat by lia.
    apply IH; [lia | exact Hm].
Qed.

Lemma grid_candidate_In (target_date : datetime) (bho : bool) (h m : Z) :
  on_grid bho h m ->
  In (scan_index (fst (hour_bounds bho)) h m, replace_time target_date h m)
     (hour_candidates target_date 0
        (range (fst (hour_bounds bho)) (snd (hour_bounds bho)))).
Proof.
  intros [Hh Hm]. unfold range.
  set (a := fst (hour_bounds bho)) in *. set (b := snd (hour_bounds bho)) in *.
  replace h with (a + Z.of_nat (Z.to_nat (h - a))) by lia.
  rewrite scan_index_eq by exact Hm.
  apply hour_candidates_complete; [lia | exact Hm].
Qed.

Lemma accepted_none (clock : nat -> datetime)
    (answers : nat -> datetime -> bool) (cs : list (nat * datetime)) :
  (forall k c, In (k, c) cs ->
               Datetime.lt c (clock k) = true \/ answers k c = false) ->
  accepted clock answers cs = [].
Proof.
  induction cs as [|[k c] cs IH]; intro H; cbn [accepted]; [reflexivity|].
  destruct (H k c (or_introl eq_refl)) as [-> | ->];
    rewrite ?andb_false_r; cbn [negb andb];
    apply IH; intros k' c' Hin; apply H; now right.
Qed.

Lemma accepted_all_past (clock : nat -> datetime)
    (answers : nat -> datetime -> bool) (cs : list (nat * datetime)) :
  (forall k c, In (k, c) cs -> Datetime.lt c (clock k) = true) ->
  accepted clock answers cs = [].
Proof.
  intro H. apply accepted_none. intros k c Hin. left. now apply H.
Qed.

Lemma cap_pos (self : GoogleCalendarService.t) : (0 < cap self)%nat.
Proof. destruct self; cbn; lia. Qed.

(** X5. [suggest_times] skips no free slot below its cap: when it returns
    fewer entries than the cap (10 for the remote calendar, 5 for the
    in-memory one), every candidate of the grid that was not in the past
    and was reported free when examined is in the result. *)
Theorem suggest_times_complete :
  forall (env : environment) (self : GoogleCalendarService.t)
         (target_date : datetime) (duration_minutes : Z)
         (business_hours_only : bool) (l : list datetime) (h m : Z),
    suggest_times env self target_date duration_minutes business_hours_only
    = Ok l ->
    (List.length l < cap self)%nat ->
    on_grid business_hours_only h m ->
    free_when_scanned env self target_date duration_minutes
      business_hours_only h m ->
    In (replace_time target_date h m) l.
Proof.
  intros env self target d bho l h m Hrun Hlen Hgrid [Hpast Hfree].
  apply suggest_times_ok in Hrun.
  rewrite Hrun in Hlen |- *. rewrite length_firstn in Hlen.
  rewrite firstn_all2 by lia.
  eapply accepted_complete;
    [apply grid_candidate_In; exact Hgrid | exact Hpast |].
  unfold answer_of. now rewrite Hfree.
Qed.

(** X6. [suggest_times] returns the empty list exactly when every
    candidate of the grid, when examined, is in the past or is reported
    busy by an availability check that returns (a date that has passed, or
    a fully booked one). *)
Theorem suggest_times_empty_iff :
  forall (env : environment) (self : GoogleCalendarService.t)
         (target_date : datetime) (duration_minutes : Z)
         (business_hours_only : bool),
    suggest_times env self target_date duration_minutes business_hours_only
    = Ok [] <->
    (forall h m,
       on_grid business_hours_only h m ->
       past_or_busy env self target_date duration_minutes
         business_hours_only h m).
Proof.
  intros env self target d bho. split.
  - intros Hrun h m Hgrid. unfold past_or_busy. cbv zeta.
    pose proof (grid_candidate_In target bho h m Hgrid) as Hin.
    destruct (Datetime.lt (replace_time target h m) _) eqn:Hpast;
      [now left | right].
    pose proof Hrun as Hflat. rewrite suggest_times_flat in Hflat.
    destruct (scan_flat_checked (now env) _ (cap self) _ [] []
                (cap_pos self) Hflat (cap_pos self) _ _ Hin Hpast)
      as [[|] Hc];
      [exfalso | exact Hc].
    apply suggest_times_ok in Hrun.
    assert (Hacc : In (replace_time target h m)
                     (accepted (now env)
                        (answer_of
                           (fun k c => check_availability env k self c d))
                        (hour_candidates target 0
                           (range (fst (hour_bounds bho))
                                  (snd (hour_bounds bho)))))).
    { eapply accepted_complete; [exact Hin | exact Hpast |].
      unfold answer_of. now rewrite Hc. }
    destruct (accepted _ _ _) as [|c acc]; [destruct Hacc|].
    pose proof (cap_pos self) as Hcap.
    destruct (cap self); [lia | discriminate Hrun].
  - intro Hall.
    assert (Hcs : forall k c,
              In (k, c) (hour_candidates target 0
                           (range (fst (hour_bounds bho))
                                  (snd (hour_bounds bho)))) ->
              Datetime.lt c (now env k) = true \/
              check_availability env k self c d = Ok false).
    { intros k c Hin. apply range_candidates_In in Hin.
      destruct Hin as (h & m & Hh & Hm & -> & ->).
      apply (Hall h m). split; assumption. }
    destruct (scan_flat_returns (now env)
                (fun k c => check_availability env k self c d) (cap self)
                _ [] (fun k c Hin =>
                        match Hcs k c Hin with
                        | or_introl Hp => or_introl Hp
                        | or_intror Hb => or_intror (ex_intro _ false Hb)
                        end)) as [l Hl].
    rewrite <- suggest_times_flat in Hl. rewrite Hl. f_equal.
    apply suggest_times_ok in Hl. rewrite Hl, accepted_none;
      [apply firstn_nil|].
    intros k c Hin. destruct (Hcs k c Hin) as [Hp | Hb]; [now left | right].
    unfold answer_of. now rewrite Hb.
Qed.

(** X7. Once the clock reads the day after the target date or later, every
    call of [suggest_times] for that date returns the empty list. *)
Theorem suggest_times_past_date :
  forall (env : environment) (self : GoogleCalendarService.t)
         (target_date : datetime) (duration_minutes : Z)
         (business_hours_only : bool),
    (forall k, (ordinal target_date + 1) * 86400000000 <= to_micros (now env k)) ->
    suggest_times env self target_date duration_minutes business_hours_only
    = Ok [].
Proof.
  intros env self target d bho Hclock.
  assert (Hcs : forall k c,
            In (k, c) (hour_candidates target 0
                         (range (fst (hour_bounds bho))
                                (snd (hour_bounds bho)))) ->
            Datetime.lt c (now env k) = true).
  { intros k c Hin. unfold range in Hin. apply hour_candidates_In in Hin.
    destruct Hin as (i & m & Hi & Hm & -> & _).
    specialize (Hclock k).
    apply Z.ltb_lt. unfold to_micros at 1. unfold replace_time.
    cbn [ordinal hour minute second microsecond].
    destruct bho; cbn [hour_bounds fst snd] in Hi |- *; lia. }
  destruct (scan_flat_returns (now env)
              (fun k c => check_availability env k self c d) (cap self)
              _ [] (fun k c Hin => or_introl (Hcs k c Hin))) as [l Hl].
  rewrite <- suggest_times_flat in Hl. rewrite Hl. f_equal.
  apply suggest_times_ok in Hl.
  rewrite Hl, accepted_all_past by exact Hcs. apply firstn_nil.
Qed.

(** X8. The in-memory calendar never suggests a start in the hour of 2 PM,
    whatever it holds: a list that [MockCalendarService.suggest_times]
    returns has at most 5 start times, none with hour 14. *)
Theorem mock_never_suggests_two_pm :
  forall (env : environment) (m : MockCalendarService.t)
         (target_date : datetime) (duration_minutes : Z)
         (business_hours_only : bool) (l : list datetime),
    mock_suggest_times env m target_date duration_minutes business_hours_only
    = Ok l ->
    (List.length l <= 5)%nat /\
    Forall (fun c => hour c <> 14) l.
Proof.
  intros env m target d bho l Hrun.
  pose proof (suggest_times_ok env (MockService m) target d bho l Hrun) as H.
  cbn [cap] in H. subst l.
  split; [apply firstn_le_length|].
  apply Forall_forall. intros c Hc.
  apply firstn_In, accepted_In in Hc.
  destruct Hc as (k & _ & _ & Hfree).
  unfold answer_of in Hfree. cbn [check_availability] in Hfree.
  destruct (MockCalendarService.check_availability m c d) as [[|]|x] eqn:E;
    try discriminate Hfree.
  apply mock_check_ok in E. intro H14.
  destruct E as [_ E]. discriminate E. now left.
Qed.

End Suggestions.

Lemma suggest_times_complete_witness :
  In (replace_time Examples.day 15 30)
     [replace_time Examples.day 15 0; replace_time Examples.day 15 30;
      replace_time Examples.day 16 0; replace_time Examples.day 16 30].
Proof.
  apply (suggest_times_complete
           (mkenv (fun _ => mkdt 739320 14 40 0 0)
              (fun _ _ _ => Ok []) (fun _ _ _ _ => Ok None)
              (fun _ _ => Ok "Hello there"))
           (GoogleCalendarService.MockService MockCalendarService.init)
           Examples.day 60 true _ 15 30).
  - reflexivity.
  - cbn. lia.
  - split; cbn; lia.
  - split; reflexivity.
Defined.

Lemma suggest_times_past_date_witness :
  GoogleCalendarService.suggest_times
    (mkenv (fun _ => mkdt 739321 12 0 0 0)
       (fun _ _ _ => Ok []) (fun _ _ _ _ => Ok None)
       (fun _ _ => Ok "Hello there"))
    GoogleCalendarService.LiveService Examples.day 60 false
  = Ok [].
Proof.
  apply (suggest_times_past_date
           (mkenv (fun _ => mkdt 739321 12 0 0 0)
              (fun _ _ _ => Ok []) (fun _ _ _ _ => Ok None)
              (fun _ _ => Ok "Hello there"))
           GoogleCalendarService.LiveService Examples.day 60 false).
  intro k. cbn. lia.
Defined.

Lemma mock_never_suggests_two_pm_witness :
  (List.length
     [replace_time Examples.day 13 30; replace_time Examples.day 15 0;
      replace_time Examples.day 15 30; replace_time Examples.day 16 0;
      replace_time Examples.day 16 30] <= 5)%nat /\
  Forall (fun c => hour c <> 14)
    [replace_time Examples.day 13 30; replace_time Examples.day 15 0;
     replace_time Examples.day 15 30; replace_time Examples.day 16 0;
     replace_time Examples.day 16 30].
Proof.
  apply (mock_never_suggests_two_pm
           (mkenv (fun _ => mkdt 739320 13 10 0 0)
              (fun _ _ _ => Ok []) (fun _ _ _ _ => Ok None)
              (fun _ _ => Ok "Hello there"))
           MockCalendarService.init Examples.day 60 true).
  reflexivity.
Defined.

(* ================================================================== *)
(** ** The handlers beyond booking *)

Section MoreHandlers.

Import GoogleCalendarService AppointmentAgent Turn TurnFacts Effects.

Variable lib : library.
Variable env : environment.


Lemma check_events_all_after (m : MockCalendarService.t) (s e : datetime)
    (d : Z) :
  to_micros e = to_micros s + span d ->
  events_end_in_range m ->
  all_start_after m s d ->
  MockCalendarService.check_events s e (MockCalendarService.events m)
  = Ok true.
Proof.
  unfold all_start_after, events_end_in_range. intro He.
  induction (MockCalendarService.events m) as [|ev evs IH]; intros Hr H;
    cbn [MockCalendarService.check_events]; [reflexivity|].
  inversion H as [|? ? Hev Hevs]; subst.
  inversion Hr as [|? ? [ee Hee] Hrs]; subst.
  rewrite Hee. cbn [bind].
  unfold Datetime.gt at 1. unfold Datetime.lt at 2. rewrite He.
  replace (to_micros (MockCalendarService.ev_start_time ev)
           <? to_micros s + span d)%Z with false
    by (symmetry; apply Z.ltb_ge; exact Hev).
  rewrite andb_false_r. now apply IH.
Qed.

(** X10. A check without a time looks at one slot only, the one that starts
    where the date alone parses to (midnight).  On the in-memory calendar,
    with an integer duration, a context of the extractor that is a mapping
    (or absent), and the ends of the slot and of every stored event within
    the years 1..9999, it answers that the user is available, and records
    [available: True], whenever that start is outside the hour of 2 PM and
    no stored event starts before the end of that slot, however full the
    rest of the day is. *)
Theorem date_only_check_looks_at_first_slot :
  forall (p ai_response ctx : dict) (m : MockCalendarService.t)
         (cs : list backend_call) (date : json) (start : datetime) (d : Z),
    dict_get p "date" = Some date -> truthy date = true ->
    truthy (match dict_get p "time" with Some v => v | None => JNull end)
    = false ->
    get (JObj p) "duration" (JNum 60) = Ok (JNum d) ->
    strptime_value lib date "%Y-%m-%d" = Ok start ->
    hour start <> 14 ->
    ends_in_range start d ->
    events_end_in_range m ->
    all_start_after m start d ->
    context_of ai_response = JObj ctx ->
    _check_availability lib env (JObj p) ai_response
      (mkworld (MockService m) cs)
    = (Ok [("message",
            JStr (fstring ["Great! You're available on "; str lib date;
                           ". Would you like me to book an appointment?"]));
           ("context",
            JObj (dict_set ctx "last_availability_check"
                    (JObj [("date", date);
                           ("time",
                            match dict_get p "time" with
                            | Some v => v
                            | None => JNull
                            end);
                           ("available", JBool true)])))],
       log (CheckAvailabilityCall start (JNum d)) (mkworld (MockService m) cs)).
Proof.
  intros p ai ctx m cs date start d Hd Ht Htime Hdur Hparse Hh [e He] Hevs
    Hafter Hctx.
  unfold _check_availability, bindM, lift, ret, try_except.
  unfold get at 1 2. rewrite Hd, Hdur, Ht. cbn [negb].
  unfold _check_availability_try, bindM, lift, ret, call_check_availability.
  rewrite Htime, Hparse. cbn [calendar_service].
  rewrite check_availability_answer_typed.
  cbn [check_availability].
  unfold MockCalendarService.check_availability.
  rewrite He. cbn [bind].
  replace (hour start =? 14)%Z with false
    by (symmetry; now apply Z.eqb_neq).
  apply add_minutes_ok in He. destruct He as [He _].
  rewrite (check_events_all_after m start e d He Hevs Hafter).
  rewrite Hctx. cbn [unpack]. reflexivity.
Qed.

Lemma suggest_times_try_reply date_str duration ai w target :
  strptime_value lib date_str "%Y-%m-%d" = Ok target ->
  fst (_suggest_times_try lib env date_str duration ai w)
  = suggestions_reply lib ai date_str
      (fst (call_suggest_times env target duration w)).
Proof.
  intro Hparse.
  unfold _suggest_times_try, bindM, lift, ret, suggestions_reply.
  rewrite Hparse.
  destruct (call_suggest_times env target duration w) as [[l|e] w1];
    cbn [fst]; [|reflexivity].
  destruct (unpack (context_of ai)); reflexivity.
Qed.

Lemma suggestions_reply_prefix ai date_str (l : list datetime) :
  suggestions_reply lib ai date_str (Ok (firstn 5 l))
  = suggestions_reply lib ai date_str (Ok l).
Proof.
  unfold suggestions_reply, slice_to.
  destruct (unpack (context_of ai)) as [ctx|e]; [|reflexivity].
  rewrite firstn_firstn. cbn [Nat.min].
  destruct l; reflexivity.
Qed.

(** X11. The different caps of the two calendars do not show in a reply:
    when the remote calendar and the in-memory one give the same
    availability answers on the candidates of the scan, the
    [suggest_times] handler returns the same message and the same context
    on either. *)
Theorem suggestions_reply_same_on_both_calendars :
  forall (p ai_response : dict) (m : MockCalendarService.t)
         (cs : list backend_call) (d : Z),
    get (JObj p) "duration" (JNum 60) = Ok (JNum d) ->
    (forall target,
       strptime_value lib
         (match dict_get p "date" with Some x => x | None => JNull end)
         "%Y-%m-%d" = Ok target ->
       same_answers env m target d true) ->
    fst (_suggest_times lib env (JObj p) ai_response (mkworld LiveService cs))
    = fst (_suggest_times lib env (JObj p) ai_response
             (mkworld (MockService m) cs)).
Proof.
  intros p ai m cs d Hdur Hsame.
  unfold _suggest_times, bindM, lift, ret, try_except.
  unfold get at 1 3. rewrite Hdur.
  set (date_str := match dict_get p "date" with Some x => x | None => JNull end)
    in *.
  destruct (negb (truthy date_str)); [reflexivity|].
  destruct (strptime_value lib date_str "%Y-%m-%d") as [target|e] eqn:Hparse.
  - pose proof (suggest_times_try_reply date_str (JNum d) ai
                  (mkworld LiveService cs) target Hparse) as Hlive.
    pose proof (suggest_times_try_reply date_str (JNum d) ai
                  (mkworld (MockService m) cs) target Hparse) as Hmock.
    rewrite !call_suggest_times_typed in Hlive, Hmock.
    cbn [calendar_service] in Hlive, Hmock.
    destruct (scans_agree_up_to_cap env m target d true
                (Hsame target eq_refl)) as (l & Hl & Hm).
    cbn [suggest_times] in Hmock. rewrite Hl in Hlive. rewrite Hm in Hmock.
    assert (Heq : fst (_suggest_times_try lib env date_str (JNum d) ai
                         (mkworld LiveService cs))
                  = fst (_suggest_times_try lib env date_str (JNum d) ai
                           (mkworld (MockService m) cs))).
    { rewrite Hlive, Hmock. symmetry. apply suggestions_reply_prefix. }
    destruct (_suggest_times_try lib env date_str (JNum d) ai
                (mkworld LiveService cs)) as [[r1|e1] w1];
      destruct (_suggest_times_try lib env date_str (JNum d) ai
                  (mkworld (MockService m) cs)) as [[r2|e2] w2];
      cbn [fst] in Heq |- *; congruence.
  - unfold _suggest_times_try, bindM, lift. rewrite Hparse. reflexivity.
Qed.

(** X12. The remote branch fails closed: its availability answer never
    raises, and it is [True] exactly when the duration is a number, the end
    of the slot is a datetime of the years 1..9999 and the API call
    returned an empty list; an API error, an unrepresentable end or a
    duration of another type reads as busy. *)
Theorem live_check_fails_closed :
  forall (k : nat) (s : datetime) (duration : json),
  exists b,
    check_availability_answer env k LiveService s duration = Ok b /\
    (b = true <->
     exists d e, timedelta_minutes duration = Ok d /\
                 add_minutes s d = Ok e /\
                 events_list env k s e = Ok []).
Proof.
  intros k s duration. unfold check_availability_answer.
  destruct (timedelta_minutes duration) as [d|x].
  - eexists. split; [reflexivity|]. unfold live_available.
    destruct (add_minutes s d) as [e|x] eqn:Ee; cbn [bind].
    + destruct (events_list env k s e) as [[|y ys]|x] eqn:E; cbn [bind].
      * split; [intros _; exists d, e; auto | reflexivity].
      * split; [discriminate|]. intros (d' & e' & Hd & He & H).
        inversion Hd; subst. rewrite Ee in He. inversion He; subst.
        rewrite E in H. discriminate H.
      * split; [discriminate|]. intros (d' & e' & Hd & He & H).
        inversion Hd; subst. rewrite Ee in He. inversion He; subst.
        rewrite E in H. discriminate H.
    + split; [discriminate|]. intros (d' & e' & Hd & He & _).
      inversion Hd; subst. rewrite Ee in He. discriminate He.
  - exists false. split; [reflexivity|].
    split; [discriminate | intros (d' & e' & Hd & _); discriminate Hd].
Qed.

(** X13. An outage of the remote calendar reads as a scheduling conflict:
    when the API call of the availability check raises, [_book_appointment]
    answers with the conflict message, not with an apology. *)
Theorem live_outage_reads_as_conflict :
  forall (p ai_response : dict) (cs : list backend_call)
         (date time title : json) (start : datetime) (d : Z) (e : exn),
    dict_get p "date" = Some date -> truthy date = true ->
    dict_get p "time" = Some time -> truthy time = true ->
    dict_get p "title" = Some title -> truthy title = true ->
    strptime lib (fstring [str lib date; " "; str lib time]) "%Y-%m-%d %H:%M"
    = Ok start ->
    get (JObj p) "duration" (JNum 60) = Ok (JNum d) ->
    (forall end_time,
       add_minutes start d = Ok end_time ->
       events_list env 0 start end_time = Raise e) ->
    fst (_book_appointment lib env (JObj p) ai_response
           (mkworld LiveService cs))
    = Ok [("message",
           JStr (fstring ["There's a conflict at "; str lib time; " on ";
                          str lib date;
                          ". Would you like me to suggest alternative times?"]));
          ("context", context_of ai_response)].
Proof.
  intros p ai cs date time title start d e H1 T1 H2 T2 H3 T3 Hparse Hdur Hapi.
  unfold _book_appointment, bindM, lift, try_except.
  rewrite missing_among_dict,
    (missing_fields_none p date time title H1 T1 H2 T2 H3 T3).
  unfold _book_appointment_try, bindM, lift, ret, call_check_availability,
    subscript, getitem.
  rewrite H1, H2, Hparse, Hdur. cbn [calendar_service].
  rewrite check_availability_answer_typed.
  cbn [check_availability]. unfold live_available.
  destruct (add_minutes start d) as [end_time|x] eqn:Ee; cbn [bind];
    [rewrite (Hapi end_time eq_refl)|]; reflexivity.
Qed.

(** X14. When the stashing of a partial booking meets an extractor context
    that is present but no mapping (for instance [null]), the partial
    parameters are not kept: the unpacking raises outside the handler's
    [try], and [_execute_action] answers with its own apology and the
    context as it came, without calling the calendar. *)
Theorem partial_booking_lost_on_bad_context :
  forall (ai_response p : dict) (w : world) (e : exn),
    action_of ai_response = JStr "book_appointment" ->
    parameters_of ai_response = JObj p ->
    missing_fields p ["date"; "time"; "title"] <> [] ->
    unpack (context_of ai_response) = Raise e ->
    _execute_action lib env ai_response w
    = (Ok [("message",
            JStr (fstring ["I had trouble with that request: "; exn_text e;
                           ". Could you please try again?"]));
           ("context", context_of ai_response)],
       w).
Proof.
  intros ai p w e Ha Hp Hmiss Hctx.
  unfold _execute_action, _book_appointment, bindM, lift, ret, try_except.
  rewrite Ha, Hp. cbv [eq_str String.eqb Ascii.eqb Bool.eqb].
  rewrite missing_among_dict.
  destruct (missing_fields p ["date"; "time"; "title"]); [contradiction|].
  rewrite Hctx. reflexivity.
Qed.

End MoreHandlers.

(* ================================================================== *)
(** ** What a turn leaves alone *)

Lemma dict_set_same_value (d : dict) (k : string) (v : json) :
  dict_get d k = Some v -> dict_set d k v = d.
Proof.
  induction d as [|[k' v'] d IH]; cbn [dict_get dict_set]; [discriminate|].
  destruct (String.eqb_spec k' k) as [->|Hne].
  - intro H. inversion H. reflexivity.
  - intro H. now rewrite IH.
Qed.

Section TurnEffects.

Import GoogleCalendarService AppointmentAgent Turn TurnFacts Effects.

Variable lib : library.
Variable env : environment.

(** The body of a turn, in the cases of its result. *)
Lemma process_message_body_steps user_message context w :
  (exists e,
     process_message_body lib env user_message context w = (Raise e, w)) \/
  (exists ai,
     _get_ai_response lib env user_message context = Ok (JObj ai) /\
     (process_message_body lib env user_message context w = (Ok ai, w) \/
      exists res w' r,
        truthy (action_of ai) = true /\
        eq_str (action_of ai) "general_chat" = false /\
        _execute_action lib env ai w = (Ok res, w') /\
        process_message_body lib env user_message context w = (r, w') /\
        (r = Ok ai \/ r = fold_result ai res))).
Proof.
  unfold process_message_body, bindM, lift, ret.
  destruct (_get_ai_response lib env user_message context) as [v|e0];
    [|left; eauto].
  destruct v as [| | | | |ai]; cbn [get unpack]; try (left; eauto; fail).
  right. exists ai. split; [reflexivity|].
  fold (action_of ai).
  destruct (truthy (action_of ai)) eqn:Ht; [|now left].
  unfold getitem. unfold action_of in *.
  destruct (dict_get ai "action") as [a|] eqn:Ea; [|discriminate Ht].
  destruct (eq_str a "general_chat") eqn:Eg; cbn [negb]; [now left|].
  right.
  destruct (execute_action_world lib env ai w) as (res & w1 & Hex & _ & _).
  rewrite Hex. exists res, w1.
  destruct (truthy (JObj res)); eexists; repeat split; auto.
Qed.

(** X15. No turn writes to the calendar.  The booking handler is the only
    caller of [create_event], and its call passes the keyword [duration],
    which the method does not accept (C2), so the call is refused before
    the method is entered: whatever the message, the language model and
    the calendar do, [process_message] leaves the calendar service and its
    stored events as they were, and [create_event] is not entered. *)
Theorem turn_creates_no_event :
  forall (user_message : string) (context : option dict) (w : world),
    let w' := snd (process_message lib env user_message context w) in
    no_event_created w w' /\
    stored_events (calendar_service w') = stored_events (calendar_service w).
Proof.
  intros um context w. cbv zeta.
  pose proof (process_message_creates_no_event lib env um context w) as H.
  split; [exact H|]. destruct H as [-> _]. reflexivity.
Qed.

(** X16. Plain conversation has no effect: when the extractor's response
    has no action (absent, [null] or empty) or the action [general_chat],
    [process_message] returns that response as it is, with every key the
    extractor put in, and enters no calendar method. *)
Theorem general_chat_has_no_effect :
  forall (user_message : string) (context : option dict) (w : world)
         (ai : dict),
    _get_ai_response lib env user_message (input_context context)
    = Ok (JObj ai) ->
    truthy (action_of ai) = false \/ action_of ai = JStr "general_chat" ->
    process_message lib env user_message context w = (Ok ai, w).
Proof.
  intros um context w ai Hai Hact.
  unfold process_message, try_except, process_message_body, bindM, lift, ret.
  fold (input_context context). rewrite Hai. cbn [get unpack].
  fold (action_of ai).
  destruct Hact as [Hf | Hg].
  - rewrite Hf. reflexivity.
  - rewrite Hg. cbn [truthy String.eqb negb].
    apply action_of_str in Hg. unfold getitem. rewrite Hg. reflexivity.
Qed.

(** X17. An action outside the documented ones is not refused: the
    response of the extractor is returned with its own message, and with
    [context] set to [{}] if it had none; no calendar method is entered. *)
Theorem unknown_action_is_echoed :
  forall (user_message : string) (context : option dict) (w : world)
         (ai : dict) (a : string) (m0 : json),
    _get_ai_response lib env user_message (input_context context)
    = Ok (JObj ai) ->
    action_of ai = JStr a ->
    a <> "" ->
    ~ In a documented_actions ->
    dict_get ai "message" = Some m0 ->
    process_message lib env user_message context w
    = (Ok (dict_set ai "context" (context_of ai)), w).
Proof.
  intros um context w ai a m0 Hai Ha Hne Hdoc Hm0.
  assert (Hneq : forall s, In s documented_actions -> String.eqb a s = false).
  { intros s Hs. destruct (String.eqb_spec a s); [subst; contradiction|auto]. }
  unfold process_message, try_except, process_message_body, bindM, lift, ret.
  fold (input_context context). rewrite Hai. cbn [get unpack].
  fold (action_of ai). rewrite Ha.
  change (truthy (JStr a)) with (negb (String.eqb a "")).
  replace (String.eqb a "") with false
    by (symmetry; now apply String.eqb_neq).
  cbn [negb]. unfold getitem at 1. rewrite (action_of_str ai a Ha).
  cbn [eq_str]. rewrite (Hneq "general_chat") by (cbn; auto). cbn [negb].
  unfold _execute_action, try_except. rewrite Ha. cbn [eq_str].
  rewrite (Hneq "check_availability"), (Hneq "book_appointment"),
    (Hneq "suggest_times") by (cbn; auto).
  unfold ret.
  assert (Hnonempty : truthy (JObj ai) = true).
  { destruct ai; [discriminate Hm0 | reflexivity]. }
  rewrite Hnonempty. unfold fold_result, getitem. rewrite Hm0.
  cbn [bind]. rewrite (dict_set_same_value ai "message" m0 Hm0).
  unfold context_of.
  destruct (dict_get ai "context") eqn:Ec; reflexivity.
Qed.

Lemma fold_result_other_keys (ai res d : dict) (k : string) :
  fold_result ai res = Ok d ->
  k <> "message" -> k <> "context" ->
  dict_get d k = dict_get ai k.
Proof.
  unfold fold_result. destruct (getitem ai "message"); cbn [bind];
    [|discriminate].
  intros H Hm Hc. inversion H; subst.
  rewrite !dict_get_set_other by congruence. reflexivity.
Qed.

(** X18. A turn changes only the message and the context of the
    extractor's response: when the turn ends without the error response,
    every other key of the returned dict (the action, the parameters, any
    further key) has the value the extractor gave it. *)
Theorem turn_keeps_other_keys :
  forall (user_message : string) (context : dict) (w w' : world)
         (ai d : dict) (k : string),
    _get_ai_response lib env user_message context = Ok (JObj ai) ->
    process_message_body lib env user_message context w = (Ok d, w') ->
    k <> "message" -> k <> "context" ->
    dict_get d k = dict_get ai k.
Proof.
  intros um context w w' ai d k Hai Hbody Hm Hc.
  destruct (process_message_body_steps um context w)
    as [(e & H) | (ai' & Hai' & [H | (res & w1 & r & _ & _ & _ & H & Hr)])];
    rewrite H in Hbody.
  - discriminate Hbody.
  - rewrite Hai in Hai'. inversion Hai'; subst ai'.
    inversion Hbody; subst. reflexivity.
  - rewrite Hai in Hai'. inversion Hai'; subst ai'.
    inversion Hbody; subst.
    destruct Hr as [Hr | Hr].
    + inversion Hr; subst. reflexivity.
    + symmetry in Hr. now apply (fold_result_other_keys ai res d k).
Qed.

End TurnEffects.

(* ================================================================== *)
(** ** The chat step and the business hours *)

Section ChatStep.

Import GoogleCalendarService AppointmentAgent Turn TurnFacts App.

Variable lib : library.
Variable env : environment.
Variable markdown : json -> result unit.

Lemma process_message_ok user_message context w :
  exists d, fst (process_message lib env user_message context w) = Ok d.
Proof.
  unfold process_message, try_except.
  destruct (process_message_body lib env user_message _ w) as [[d|e] w1];
    eexists; reflexivity.
Qed.

(** X19. A chat step always extends the history by exactly two entries,
    the user's prompt and one assistant entry, and replaces the session
    context by the context of the response ([{}] if it has none).  The
    assistant entry is the message of the response when there is one and it
    can be shown; when the response has no message the entry is the error
    text for the missing key, and the context has been replaced all the
    same. *)
Theorem chat_step_appends_two_messages :
  forall (prompt : string) (history : list message) (context : dict)
         (w : world),
  exists (reply : json) (d : dict),
    fst (process_message lib env prompt (Some context) w) = Ok d /\
    chat_step lib env markdown prompt history context w
    = (history ++ [mkmessage "user" (JStr prompt);
                   mkmessage "assistant" reply],
       match dict_get d "context" with Some c => c | None => JObj [] end,
       snd (process_message lib env prompt (Some context) w)) /\
    (forall m, dict_get d "message" = Some m -> markdown m = Ok tt ->
               reply = m) /\
    (dict_get d "message" = None ->
     reply = JStr "Sorry, I encountered an error: 'message'").
Proof.
  intros prompt history context w.
  destruct (process_message_ok prompt (Some context) w) as (d & Hd).
  unfold chat_step, respond.
  destruct (process_message lib env prompt (Some context) w) as [r w1].
  cbn [fst snd] in *. subst r.
  unfold getitem.
  destruct (dict_get d "message") as [m|] eqn:Em; cbn [bind].
  - destruct (markdown m) as [[]|e] eqn:Emd; cbn [bind].
    + exists m, d. rewrite <- app_assoc.
      repeat split; auto; intros; congruence.
    + eexists _, d. rewrite <- app_assoc.
      repeat split; auto; intros; congruence.
  - eexists _, d. rewrite <- app_assoc.
    repeat split; auto; intros; congruence.
Qed.

End ChatStep.

Section BusinessHours.

Import GoogleCalendarService CalendarQueries.

Lemma business_hours_labels (target_date : datetime) :
  Utils.get_business_hours
  = map (fun kc => strftime_HM (snd kc))
      (hour_candidates target_date 0 (range 9 17)).
Proof. reflexivity. Qed.

(** X20. [get_business_hours] of utils.py lists the sixteen labels
    [09:00], [09:30], ..., [16:30] of the grid that [suggest_times] scans
    in business hours, in scan order: every start time of a list that
    [suggest_times] returns with [business_hours_only] prints, as
    [%H:%M], to one of them. *)
Theorem suggestions_print_as_business_hours :
  forall (env : environment) (self : GoogleCalendarService.t)
         (target_date : datetime) (duration_minutes : Z)
         (l : list datetime),
    suggest_times env self target_date duration_minutes true = Ok l ->
    List.length Utils.get_business_hours = 16%nat /\
    Forall (fun c => In (strftime_HM c) Utils.get_business_hours) l.
Proof.
  intros env self target d l Hrun. split; [reflexivity|].
  apply suggest_times_ok in Hrun. subst l.
  apply Forall_forall. intros c Hc.
  apply firstn_In, accepted_In in Hc. destruct Hc as (k & Hin & _).
  rewrite (business_hours_labels target).
  change (strftime_HM c) with ((fun kc => strftime_HM (snd kc)) (k, c)).
  apply in_map. exact Hin.
Qed.

End BusinessHours.

(* ================================================================== *)
(** ** The further properties on the examples *)


Lemma date_only_check_looks_at_first_slot_witness :
  fst (AppointmentAgent._check_availability Sample.lib Examples.env
         (JObj [("date", JStr "2025-03-10")]) []
         (AppointmentAgent.mkworld
            (GoogleCalendarService.MockService
               (CalendarQueries.booked
                  [CalendarQueries.mkbooking "Workshop"
                     (mkdt 739320 1 0 0 0) 1380 ""]))
            []))
  = Ok [("message",
         JStr "Great! You're available on 2025-03-10. Would you like me to book an appointment?");
        ("context",
         JObj [("last_availability_check",
                JObj [("date", JStr "2025-03-10"); ("time", JNull);
                      ("available", JBool true)])])].
Proof.
  rewrite (date_only_check_looks_at_first_slot Sample.lib Examples.env
             [("date", JStr "2025-03-10")] [] []
             (CalendarQueries.booked
                [CalendarQueries.mkbooking "Workshop"
                   (mkdt 739320 1 0 0 0) 1380 ""])
             [] (JStr "2025-03-10") (mkdt 739320 0 0 0 0) 60).
  - reflexivity.
  - reflexivity.
  - reflexivity.
  - reflexivity.
  - reflexivity.
  - reflexivity.
  - cbn. discriminate.
  - eexists. vm_compute. reflexivity.
  - repeat constructor. eexists. vm_compute. reflexivity.
  - repeat constructor. vm_compute. discriminate.
  - reflexivity.
Defined.

Lemma suggestions_reply_same_on_both_calendars_witness :
  fst (AppointmentAgent._suggest_times Sample.lib Examples.env
         (JObj [("date", JStr "2025-03-10")]) []
         (AppointmentAgent.mkworld GoogleCalendarService.LiveService []))
  = fst (AppointmentAgent._suggest_times Sample.lib Examples.env
           (JObj [("date", JStr "2025-03-10")]) []
           (AppointmentAgent.mkworld
              (GoogleCalendarService.MockService MockCalendarService.init)
              [])).
Proof.
  apply (suggestions_reply_same_on_both_calendars Sample.lib Examples.env
           [("date", JStr "2025-03-10")] [] MockCalendarService.init [] 60).
  - reflexivity.
  - intros target Hparse. vm_compute in Hparse.
    injection Hparse as <-.
    intros h mi Hh Hm. cbn [hour_bounds fst snd] in Hh.
    assert (Hcases : h = 9 \/ h = 10 \/ h = 11 \/ h = 12 \/ h = 13 \/ h = 14
                     \/ h = 15 \/ h = 16) by lia.
    destruct Hm as [-> | ->];
      repeat (destruct Hcases as [-> | Hcases]; [reflexivity|]);
      subst; reflexivity.
Defined.

Lemma live_outage_reads_as_conflict_witness :
  fst (AppointmentAgent._book_appointment Sample.lib
         (mkenv Examples.clock
            (fun _ _ _ => Raise (Exn "HttpError" "503 Service Unavailable"))
            (fun _ _ _ _ => Ok None) (fun _ _ => Ok "Hello there"))
         (JObj (Requests.sync_at "10:00")) []
         (AppointmentAgent.mkworld GoogleCalendarService.LiveService []))
  = Ok [("message",
         JStr "There's a conflict at 10:00 on 2025-03-10. Would you like me to suggest alternative times?");
        ("context", JObj [])].
Proof.
  apply (live_outage_reads_as_conflict Sample.lib
           (mkenv Examples.clock
              (fun _ _ _ => Raise (Exn "HttpError" "503 Service Unavailable"))
              (fun _ _ _ _ => Ok None) (fun _ _ => Ok "Hello there"))
           (Requests.sync_at "10:00") [] []
           (JStr "2025-03-10") (JStr "10:00") (JStr "Sync")
           (mkdt 739320 10 0 0 0) 60
           (Exn "HttpError" "503 Service Unavailable"));
    reflexivity.
Defined.

Lemma partial_booking_lost_on_bad_context_witness :
  AppointmentAgent._execute_action Sample.lib Examples.env
    [("message", JStr "Which title?");
     ("action", JStr "book_appointment");
     ("parameters", JObj Requests.untitled);
     ("context", JNull)]
    Examples.fresh
  = (Ok [("message",
          JStr "I had trouble with that request: 'NoneType' object is not a mapping. Could you please try again?");
         ("context", JNull)],
     Examples.fresh).
Proof.
  apply (partial_booking_lost_on_bad_context Sample.lib Examples.env
           [("message", JStr "Which title?");
            ("action", JStr "book_appointment");
            ("parameters", JObj Requests.untitled);
            ("context", JNull)]
           Requests.untitled Examples.fresh
           (Exn "TypeError" "'NoneType' object is not a mapping")).
  - reflexivity.
  - reflexivity.
  - vm_compute. discriminate.
  - reflexivity.
Defined.

Lemma general_chat_has_no_effect_witness :
  AppointmentAgent.process_message Sample.lib
    (Examples.env_answering (Ok "{}")) "Hi" None Examples.fresh
  = (Ok [], Examples.fresh).
Proof.
  apply (general_chat_has_no_effect Sample.lib
           (Examples.env_answering (Ok "{}")) "Hi" None Examples.fresh []).
  - reflexivity.
  - left. reflexivity.
Defined.

Lemma unknown_action_is_echoed_witness :
  AppointmentAgent.process_message Sample.lib
    (Examples.env_answering
       (Ok (Sample.dumps
              (JObj [("message", JStr "Cancelling.");
                     ("action", JStr "cancel_appointment")]))))
    "Cancel my meeting" None Examples.fresh
  = (Ok [("message", JStr "Cancelling.");
         ("action", JStr "cancel_appointment");
         ("context", JObj [])],
     Examples.fresh).
Proof.
  apply (unknown_action_is_echoed Sample.lib
           (Examples.env_answering
              (Ok (Sample.dumps
                     (JObj [("message", JStr "Cancelling.");
                            ("action", JStr "cancel_appointment")]))))
           "Cancel my meeting" None Examples.fresh
           [("message", JStr "Cancelling.");
            ("action", JStr "cancel_appointment")]
           "cancel_appointment" (JStr "Cancelling.")).
  - reflexivity.
  - reflexivity.
  - discriminate.
  - cbn. intros [H|[H|[H|[H|[]]]]]; discriminate H.
  - reflexivity.
Defined.

Lemma turn_keeps_other_keys_witness :
  exists d,
    AppointmentAgent.process_message_body Sample.lib
      Requests.env_check_tomorrow "Am I free tomorrow?" [] Examples.fresh
    = (Ok d, Examples.fresh) /\
    dict_get d "parameters" = Some (JObj [("date", JStr "tomorrow")]).
Proof.
  eexists. split; [vm_compute; reflexivity|].
  apply (turn_keeps_other_keys Sample.lib Requests.env_check_tomorrow
           "Am I free tomorrow?" [] Examples.fresh Examples.fresh
           Requests.check_tomorrow _ "parameters").
  - reflexivity.
  - vm_compute. reflexivity.
  - discriminate.
  - discriminate.
Defined.

Lemma suggestions_print_as_business_hours_witness :
  List.length Utils.get_business_hours = 16%nat /\
  Forall (fun c => In (strftime_HM c) Utils.get_business_hours)
    [replace_time Examples.day 13 30; replace_time Examples.day 15 0;
     replace_time Examples.day 15 30; replace_time Examples.day 16 0;
     replace_time Examples.day 16 30].
Proof.
  apply (suggestions_print_as_business_hours
           (mkenv (fun _ => mkdt 739320 13 10 0 0)
              (fun _ _ _ => Ok []) (fun _ _ _ _ => Ok None)
              (fun _ _ => Ok "Hello there"))
           (GoogleCalendarService.MockService MockCalendarService.init)
           Examples.day 60).
  reflexivity.
Defined.

Section MissingMessage.

Import GoogleCalendarService AppointmentAgent Turn TurnFacts.

Variable lib : library.
Variable env : environment.

(** X21. A response of the extractor that names an action but has no
    [message] key ends in the error response: the action runs first (the
    calendar may be read), then the missing key raises [KeyError], and the
    turn returns action ["error"] with the caller's context; the result of
    the action is dropped. *)
Theorem action_without_message_ends_in_error :
  forall (user_message : string) (context : option dict) (w : world)
         (ai : dict) (a : json),
    _get_ai_response lib env user_message (input_context context)
    = Ok (JObj ai) ->
    dict_get ai "action" = Some a -> truthy a = true ->
    eq_str a "general_chat" = false ->
    dict_get ai "message" = None ->
    process_message lib env user_message context w
    = (Ok (error_response (Exn "KeyError" "'message'")
             (input_context context)),
       snd (_execute_action lib env ai w)).
Proof.
  intros um context w ai a Hai Ha Ht Hg Hm.
  unfold process_message, try_except, process_message_body, bindM, lift, ret.
  fold (input_context context). rewrite Hai. cbn [get unpack].
  unfold getitem at 1. rewrite Ha, Ht, Hg. cbn [negb].
  destruct (execute_action_world lib env ai w) as (res & w1 & Hex & _ & _).
  rewrite Hex. cbn [snd].
  assert (Hne : truthy (JObj ai) = true)
    by (destruct ai; [discriminate Ha | reflexivity]).
  destruct (truthy (JObj res)) eqn:Er.
  - unfold fold_result, getitem. rewrite Hm. reflexivity.
  - exfalso.
    destruct (execute_action_world lib env ai w) as (res' & w' & Hex' & _ & Hs).
    rewrite Hex in Hex'. inversion Hex'; subst res' w'.
    destruct Hs as [(m & c & -> & _) | ->]; [discriminate Er | congruence].
Qed.

End MissingMessage.

Lemma action_without_message_ends_in_error_witness :
  AppointmentAgent.process_message Sample.lib
    (Examples.env_answering
       (Ok (Sample.dumps
              (JObj [("action", JStr "check_availability");
                     ("parameters",
                      JObj [("date", JStr "2025-03-10");
                            ("time", JStr "10:00")])]))))
    "Am I free at ten?" (Some [("user_intent", JStr "check")]) Examples.fresh
  = (Ok [("message",
          JStr "I encountered an error: 'message'. Please try again.");
         ("action", JStr "error");
         ("context", JObj [("user_intent", JStr "check")])],
     AppointmentAgent.log
       (AppointmentAgent.CheckAvailabilityCall (mkdt 739320 10 0 0 0)
          (JNum 60))
       Examples.fresh).
Proof.
  apply (action_without_message_ends_in_error Sample.lib
           (Examples.env_answering
              (Ok (Sample.dumps
                     (JObj [("action", JStr "check_availability");
                            ("parameters",
                             JObj [("date", JStr "2025-03-10");
                                   ("time", JStr "10:00")])]))))
           "Am I free at ten?" (Some [("user_intent", JStr "check")])
           Examples.fresh
           [("action", JStr "check_availability");
            ("parameters",
             JObj [("date", JStr "2025-03-10"); ("time", JStr "10:00")])]
           (JStr "check_availability"));
    reflexivity.
Defined.
